(** * Verification of the FVA-600 optical attenuator driver (FVA_600.py,
      FVA_600_utilities.py)

    Shallow embedding of the driver in a state/exception monad.  The session
    object [FVA600] is a record; its USB handle is an abstract transport
    (the D2XX calls [FT_Purge], [FT_Write], [FT_Read], [FT_Close]) given by a
    type class, and every call made on the handle is logged in a trace.
    Python exceptions are the constructors of [exn]; an unbounded busy-wait
    loop is run with fuel and reports [Spin] when the fuel runs out. *)

From Stdlib Require Import String ZArith List Lia Bool.
From Stdlib Require Import Sorted.
Import ListNotations.
Open Scope string_scope.
Open Scope Z_scope.
Open Scope list_scope.

(** ** Python exceptions raised by the driver *)

Inductive exn : Type :=
| SystemError (msg : string)
| DeviceError (msg : string)
| USBCommError (msg : string)
| Exception (msg : string)            (* raise Exception("USB communication timeout") *)
| ValueError (msg : string)
| StructError (msg : string)          (* struct.error from pack / unpack *)
| UnicodeDecodeError
| UnboundLocalError (name : string).

(** ** DeviceStatus (FVA_600_utilities.py) *)

Inductive DeviceStatus : Type :=
| DISCONNECTED | DEFECTIVE | IDLE | SETTLING | CORRECTING.

Definition status_name (s : DeviceStatus) : string :=
  match s with
  | DISCONNECTED => "DISCONNECTED"
  | DEFECTIVE => "DEFECTIVE"
  | IDLE => "IDLE"
  | SETTLING => "SETTLING"
  | CORRECTING => "CORRECTING"
  end.

Definition status_eqb (a b : DeviceStatus) : bool :=
  match a, b with
  | DISCONNECTED, DISCONNECTED | DEFECTIVE, DEFECTIVE | IDLE, IDLE
  | SETTLING, SETTLING | CORRECTING, CORRECTING => true
  | _, _ => false
  end.

(** ** Decimal rendering of a Python int, for f-strings *)

Fixpoint digits_rev (fuel : nat) (n : Z) : string :=
  match fuel with
  | O => EmptyString
  | S f =>
      let d := Ascii.ascii_of_nat (48 + Z.to_nat (n mod 10)) in
      if n <? 10 then String d EmptyString
      else append (digits_rev f (n / 10)) (String d EmptyString)
  end.

Definition int_repr (n : Z) : string :=
  if n <? 0 then append "-" (digits_rev 40 (- n)) else digits_rev 40 n.

(** ** Device errors: DeviceErrorTypes and CheckDeviceError *)

Definition DeviceErrorTypes : list (Z * string) :=
  [(0, "OK"); (4, "OSCILLATOR_FAULT"); (5, "PROTOCOL_ERROR");
   (6, "UNDEFINED_COMMAND"); (7, "BAD_COMMAND_LEVEL"); (8, "PARAMETER_ERROR");
   (9, "TOO_LONG_RESPONSE"); (10, "INVALID_CRC"); (15, "INTERNAL_TIME_OUT");
   (34, "CONFIGURATION_ERROR"); (36, "INCONSISTENT_CALIBRATION");
   (37, "ATTENUATOR_NOT_CALIBRATED"); (38, "SUSPICIOUS_CALIBRATION");
   (40, "PROTECTED_EEPROM"); (41, "EEPROM_VERSION_ERROR");
   (42, "WRITE_EEPROM_ERROR"); (43, "EPPROM_NOT_RESPONDING");
   (44, "CAL_EEPROM_NOT_PRESENT"); (45, "DATA_EEPROM_NOT_PRESENT");
   (46, "CAL_EEPROM_NOT_CONFIG"); (47, "DATA_EEPROM_NOT_CONFIG");
   (48, "DATA_RECORDER_PROBLEM"); (49, "READ_EEPROM_ERROR");
   (79, "TEMPERATURE_NOT_PRESENT"); (81, "MOTOR_OPTO_SWITCH");
   (82, "MOTOR_SETTLING"); (83, "MOTOR_CORRECTING"); (85, "MOTOR_FIRST_HOME");
   (90, "MOTOR_POSITION"); (92, "MOTOR_MALFUNCTION")].

Fixpoint enum_lookup (v : Z) (l : list (Z * string)) : option string :=
  match l with
  | [] => None
  | (k, n) :: l' => if k =? v then Some n else enum_lookup v l'
  end.

(** The exception [CheckDeviceError value] raises, if any. *)
Definition CheckDeviceError (value : Z) : option exn :=
  match enum_lookup value DeviceErrorTypes with
  | None => Some (DeviceError (append "Unknown error : " (int_repr value)))
  | Some name => if value =? 0 then None else Some (DeviceError name)
  end.

(** ** USB status check ([Check_FT], the errcheck of every D2XX call) *)

Definition USBStatus_names : list (Z * string) :=
  [(0, "OK"); (1, "INVALID_HANDLE"); (2, "DEVICE_NOT_FOUND");
   (3, "DEVICE_NOT_OPENED"); (4, "IO_ERROR"); (5, "INSUFFICIENT_RESOURCES");
   (6, "INVALID_PARAMETER"); (7, "INVALID_BAUD_RATE");
   (8, "DEVICE_NOT_OPENED_FOR_ERASE"); (9, "DEVICE_NOT_OPENED_FOR_WRITE");
   (10, "FAILED_TO_WRITE_DEVICE"); (11, "EEPROM_READ_FAILED");
   (12, "EEPROM_WRITE_FAILED"); (13, "EEPROM_ERASE_FAILED");
   (14, "EEPROM_NOT_PRESENT"); (15, "EEPROM_NOT_PROGRAMMED");
   (16, "INVALID_ARGS"); (17, "NOT_SUPPORTED"); (18, "OTHER_ERROR")].

Definition Check_FT (status : Z) : option exn :=
  match enum_lookup status USBStatus_names with
  | None => Some (ValueError (append (int_repr status) " is not a valid USBStatus"))
  | Some name => if status =? 0 then None else Some (USBCommError name)
  end.

(** ** CRC-16/MODBUS ([crc16 = mkCrcFun('modbus')]): reflected polynomial
    0xA001, initial value 0xFFFF, no final xor. *)

Fixpoint crc_shift (k : nat) (crc : Z) : Z :=
  match k with
  | O => crc
  | S k' =>
      crc_shift k'
        (if Z.testbit crc 0 then Z.lxor (Z.shiftr crc 1) 40961 else Z.shiftr crc 1)
  end.

Definition crc_byte (crc b : Z) : Z := crc_shift 8 (Z.lxor crc (Z.land b 255)).

Definition crc16 (data : list Z) : Z := fold_left crc_byte data 65535.

(** ** struct.pack / struct.unpack pieces used by the driver *)

(** ['<H']: little-endian unsigned short; out of range is a struct.error. *)
Definition pack_H (n : Z) : option (list Z) :=
  if (0 <=? n) && (n <=? 65535)
  then Some [Z.land n 255; Z.shiftr n 8]
  else None.

(** ['<{n}s']: the bytes, truncated or NUL-padded to exactly n. *)
Definition pack_s (n : nat) (b : list Z) : list Z :=
  firstn n b ++ repeat 0 (n - length b).

Definition pack_H_error : exn :=
  StructError "ushort format requires 0 <= number <= 65535".

(** The request frame built at the top of [query_device]:
    [temp_buf = struct.pack(f'<H{len(command)}s', len(command), command)]
    [final_buf = struct.pack(f'<{len(temp_buf)}sH', temp_buf, crc16(temp_buf))] *)
Definition encode_frame (command : list Z) : option (list Z) :=
  match pack_H (Z.of_nat (length command)) with
  | None => None
  | Some h =>
      let temp_buf := h ++ pack_s (length command) command in
      match pack_H (crc16 temp_buf) with
      | None => None
      | Some c => Some (pack_s (length temp_buf) temp_buf ++ c)
      end
  end.

(** ** The USB transport (D2XX functions imported in FVA_600_utilities.py)

    Each call returns the driver status code (checked by [Check_FT]) and the
    new state of the handle.  [ft_write] also gives the number of bytes
    written; [ft_read] gives the bytes actually read. *)

Class Transport (D : Type) := {
  ft_purge : D -> Z -> Z * D;
  ft_write : D -> list Z -> Z * Z * D;
  ft_read : D -> Z -> Z * list Z * D;
  ft_close : D -> Z * D
}.

(** A call made on the USB handle, as logged in the session trace. *)
Inductive event : Type :=
| EvPurge (mask : Z)
| EvWrite (buf : list Z)
| EvRead (len : Z)
| EvClose.

(** Operations on the floating point values of the device (Python floats and
    the float32 of struct's ['f'] format). *)
Class FloatOps (F : Type) := {
  flt_lt : F -> F -> bool;            (* Python [<] *)
  flt_repr : F -> string;             (* f-string rendering *)
  pack_f : F -> list Z;               (* struct.pack('<f', _) *)
  unpack_f : list Z -> F;             (* struct.unpack('<f', _) on 4 bytes *)
  round2 : F -> F                     (* round(_, 2) *)
}.

(** DeviceDescriptor and CurrentState (NamedTuples).  Strings decoded from the
    device are kept as their byte sequences. *)
Record DeviceDescriptor (F : Type) := mkDescriptor {
  manufacturer : list Z;
  model : list Z;
  serial : list Z;
  firmware : list Z;
  fiberType : list Z;
  wavelengthRange : F * F;
  attenuationLin : F;
  attenuationRep : F;
  wavelengthsList : list F;
  attStepList : list F
}.
Arguments mkDescriptor {F}.
Arguments wavelengthRange {F}.
Arguments manufacturer {F}.
Arguments model {F}.
Arguments serial {F}.

Record CurrentState (F : Type) := mkCurrentState {
  cs_wavelength : F;
  attRange : F * F;
  cs_attenuation : F
}.
Arguments mkCurrentState {F}.
Arguments cs_wavelength {F}.
Arguments attRange {F}.
Arguments cs_attenuation {F}.

(** The FVA600 object: [is_closed], the USB [HANDLE] and the
    [device_descriptor], plus the log of the calls made on the handle. *)
Record FVA600 (D F : Type) := mkFVA600 {
  is_closed : bool;
  HANDLE : D;
  trace : list event;
  device_descriptor : DeviceDescriptor F
}.
Arguments mkFVA600 {D F}.
Arguments is_closed {D F}.
Arguments HANDLE {D F}.
Arguments trace {D F}.
Arguments device_descriptor {D F}.

(** Result of running a method: a return value, a raised exception, or
    [Spin] when a busy-wait loop ran out of fuel (the Python loop would still
    be running). *)
Inductive outcome (A : Type) : Type :=
| Ret (a : A)
| Raise (e : exn)
| Spin.
Arguments Ret {A}.
Arguments Raise {A}.
Arguments Spin {A}.

(** [bytes.decode('ansi')]: the platform's ANSI code page decoder, from
    bytes to code points, [None] for a UnicodeDecodeError. *)
Class AnsiCodec := { ansi_decode : list Z -> option (list Z) }.

Section Driver.
Context {D : Type} `{Transport D} {F : Type} `{FloatOps F} `{AnsiCodec}.

Definition St := FVA600 D F.
Definition M (A : Type) := St -> outcome A * St.

Definition ret {A} (a : A) : M A := fun s => (Ret a, s).
Definition raise {A} (e : exn) : M A := fun s => (Raise e, s).
Definition spin {A} : M A := fun s => (Spin, s).
Definition bind {A B} (m : M A) (k : A -> M B) : M B :=
  fun s => match m s with
           | (Ret a, s') => k a s'
           | (Raise e, s') => (Raise e, s')
           | (Spin, s') => (Spin, s')
           end.
Definition get : M St := fun s => (Ret s, s).

(** [try: m except ...]: the exception, reified. *)
Definition try_ {A} (m : M A) : M (A + exn) :=
  fun s => match m s with
           | (Ret a, s') => (Ret (inl a), s')
           | (Raise e, s') => (Ret (inr e), s')
           | (Spin, s') => (Spin, s')
           end.

Local Notation "x <- m ;; k" := (bind m (fun x => k))
  (at level 61, m at next level, right associativity).
Local Notation "m ;;; k" := (bind m (fun _ => k))
  (at level 61, right associativity).

Definition raise_opt (o : option exn) : M unit :=
  match o with None => ret tt | Some e => raise e end.

Definition log (ev : event) : M unit :=
  fun s => (Ret tt, mkFVA600 (is_closed s) (HANDLE s) (trace s ++ [ev])
                             (device_descriptor s)).

Definition set_handle (d : D) : M unit :=
  fun s => (Ret tt, mkFVA600 (is_closed s) d (trace s) (device_descriptor s)).

Definition set_closed (b : bool) : M unit :=
  fun s => (Ret tt, mkFVA600 b (HANDLE s) (trace s) (device_descriptor s)).

(** The D2XX wrappers: log the call, run it, check its status. *)
Definition USBPurge (mask : Z) : M unit :=
  log (EvPurge mask) ;;;
  s <- get ;;
  let '(st, d) := ft_purge (HANDLE s) mask in
  set_handle d ;;; raise_opt (Check_FT st).

Definition USBWrite (buf : list Z) : M Z :=
  log (EvWrite buf) ;;;
  s <- get ;;
  let '(st, n, d) := ft_write (HANDLE s) buf in
  set_handle d ;;; raise_opt (Check_FT st) ;;; ret n.

Definition USBRead (len : Z) : M (list Z) :=
  log (EvRead len) ;;;
  s <- get ;;
  let '(st, bs, d) := ft_read (HANDLE s) len in
  set_handle d ;;; raise_opt (Check_FT st) ;;; ret bs.

Definition USBClose : M unit :=
  log EvClose ;;;
  s <- get ;;
  let '(st, d) := ft_close (HANDLE s) in
  set_handle d ;;; raise_opt (Check_FT st).

(** [ctypes.create_string_buffer(n)] filled by a read of [bs]: the bytes read,
    each a C char, then the zero initialisation. *)
Definition string_buffer (n : Z) (bs : list Z) : list Z :=
  firstn (Z.to_nat n) (map (fun b => Z.land b 255) bs ++ repeat 0 (Z.to_nat n)).

Definition timeout_error : exn := Exception "USB communication timeout".

(** One pass of the [try] block of the retry loop of [query_device]: purge,
    write the frame, read the 3-byte header, check the error code.  Returns
    the body length [length]. *)
Definition query_attempt (final_buf : list Z) : M Z :=
  USBPurge 3 ;;;
  written <- USBWrite final_buf ;;
  if negb (written =? Z.of_nat (length final_buf)) then raise timeout_error else
  data <- USBRead 3 ;;
  if negb (Z.of_nat (length data) =? 3) then raise timeout_error else
  let BUFFER1 := string_buffer 3 data in
  let error := nth 0 BUFFER1 0 in
  let length := nth 1 BUFFER1 0 + 256 * nth 2 BUFFER1 0 in
  raise_opt (CheckDeviceError error) ;;;
  ret length.

Definition is_DeviceError (e : exn) : bool :=
  match e with DeviceError _ => true | _ => false end.

(** [for i in range(retry): try ... break / except DeviceError as err:
    last_error = err; continue / else: raise last_error].  [last_error] is
    [None] while the Python variable is unbound. *)
Fixpoint query_loop (final_buf : list Z) (n : nat) (last_error : option exn)
  : M Z :=
  match n with
  | O => match last_error with
         | Some e => raise e
         | None => raise (UnboundLocalError "last_error")
         end
  | S n' =>
      r <- try_ (query_attempt final_buf) ;;
      match r with
      | inl length => ret length
      | inr err =>
          if is_DeviceError err then query_loop final_buf n' (Some err)
          else raise err
      end
  end.

Definition closed_error : exn :=
  SystemError "The communication with the device is closed".

Definition query_device (command : list Z) (retry : Z) : M (list Z) :=
  s <- get ;;
  if is_closed s then raise closed_error else
  match encode_frame command with
  | None => raise pack_H_error
  | Some final_buf =>
      length <- query_loop final_buf (Z.to_nat retry) None ;;
      data <- USBRead length ;;
      if negb (Z.of_nat (List.length data) =? length) then raise timeout_error else
      USBPurge 3 ;;;
      ret (string_buffer length data)
  end.

(** ** Properties of the device *)

Definition unpack_error : exn := StructError "unpack requires a buffer of more bytes".

(** The flag precedence of the [status] property:
    [flag1, flag2, flag3 = unpack_first('<BBB', ret)]. *)
Definition decode_status (flag1 flag2 flag3 : Z) : DeviceStatus :=
  if flag2 =? 1 then CORRECTING
  else if flag1 =? 1 then SETTLING
  else if flag3 =? 1 then DEFECTIVE
  else IDLE.

Definition status : M DeviceStatus :=
  s <- get ;;
  if is_closed s then ret DISCONNECTED else
  r <- query_device [188] 10 ;;
  match r with
  | flag1 :: flag2 :: flag3 :: _ => ret (decode_status flag1 flag2 flag3)
  | _ => raise unpack_error
  end.

(** [bytes[i:i+4]] *)
Definition slice4 (i : nat) (r : list Z) : list Z := firstn 4 (skipn i r).

Definition current_state : M (CurrentState F) :=
  r <- query_device [183] 10 ;;
  if (List.length r <? 16)%nat then raise unpack_error else
  let wav := unpack_f (slice4 0 r) in
  let att := unpack_f (slice4 4 r) in
  let low_att := unpack_f (slice4 8 r) in
  let high_att := unpack_f (slice4 12 r) in
  ret (mkCurrentState wav (round2 low_att, round2 high_att) (round2 att)).

Definition get_wavelength : M F :=
  cs <- current_state ;; ret (cs_wavelength cs).

Definition get_attenuation : M F :=
  cs <- current_state ;; ret (cs_attenuation cs).

(** [while self.status == target: continue], with fuel. *)
Fixpoint wait_while (target : DeviceStatus) (fuel : nat) : M unit :=
  match fuel with
  | O => spin
  | S f =>
      st <- status ;;
      if status_eqb st target then wait_while target f else ret tt
  end.

(** The [wavelength] setter. *)
Definition set_wavelength (fuel : nat) (value : F) : M unit :=
  s <- get ;;
  let wlRange := wavelengthRange (device_descriptor s) in
  if flt_lt value (fst wlRange) then
    raise (ValueError (append "The given wavelength " (append (flt_repr value)
             (append " is below the minimum " (flt_repr (fst wlRange))))))
  else if flt_lt (snd wlRange) value then
    raise (ValueError (append "the given wavelength " (append (flt_repr value)
             (append " is above the maximum " (flt_repr (snd wlRange))))))
  else
  query_device (177 :: pack_f value) 10 ;;;
  wait_while SETTLING fuel.

(** The [attenuation] setter. *)
Definition set_attenuation (fuel : nat) (value0 : F) : M unit :=
  cs <- current_state ;;
  let rng := attRange cs in
  let value := round2 value0 in
  if flt_lt value (fst rng) then
    raise (ValueError (append "Attenuation " (append (flt_repr value)
             (append " is smaller than minimum " (flt_repr (fst rng))))))
  else if flt_lt (snd rng) value then
    raise (ValueError (append "Attenuation " (append (flt_repr value)
             (append " is bigger than maximum " (flt_repr (snd rng))))))
  else
  query_device (179 :: pack_f value) 10 ;;;
  wait_while SETTLING fuel.

Definition set_remote (remote : bool) : M unit :=
  if remote then query_device [112; 1] 10 ;;; ret tt
  else query_device [112; 0] 10 ;;; ret tt.

Definition close : M unit :=
  s <- get ;;
  if negb (is_closed s) then
    set_remote false ;;;
    USBClose ;;;
    set_closed true
  else ret tt.

(** The outer loop of [do_zero_device]:
    [for i in range(10): try: attempt; break
     except Exception as err: if self.status == CORRECTING: break;
     current_error = err / else: raise current_error]. *)
Fixpoint zero_retry_loop (attempt : M (list Z)) (n : nat)
  (current_error : option exn) : M unit :=
  match n with
  | O => match current_error with
         | Some e => raise e
         | None => raise (UnboundLocalError "current_error")
         end
  | S n' =>
      r <- try_ attempt ;;
      match r with
      | inl _ => ret tt
      | inr err =>
          st <- status ;;
          if status_eqb st CORRECTING then ret tt
          else zero_retry_loop attempt n' (Some err)
      end
  end.

Definition do_zero_device (fuel : nat) (wait_for_end : bool) : M unit :=
  stat <- status ;;
  if negb (status_eqb stat IDLE) then
    raise (DeviceError (append "The device is not idle : status " (status_name stat)))
  else
  zero_retry_loop (query_device [186] 0) 10 None ;;;
  if wait_for_end then wait_while CORRECTING fuel else ret tt.

(** ** populate_device_descr *)

(** [b.partition(b'\x00')], without the separator. *)
Fixpoint partition0 (l : list Z) : list Z * list Z :=
  match l with
  | [] => ([], [])
  | b :: l' => if b =? 0 then ([], l')
               else let '(x, y) := partition0 l' in (b :: x, y)
  end.

(** [str.split(',')] *)
Fixpoint split_comma (l : list Z) : list (list Z) :=
  match l with
  | [] => [[]]
  | c :: l' =>
      match split_comma l' with
      | [] => [[c]]
      | p :: ps => if c =? 44 then [] :: p :: ps else (c :: p) :: ps
      end
  end.

(** [str.strip(' ')] *)
Fixpoint lstrip_space (l : list Z) : list Z :=
  match l with
  | c :: l' => if c =? 32 then lstrip_space l' else l
  | [] => []
  end.
Definition strip_space (l : list Z) : list Z := rev (lstrip_space (rev (lstrip_space l))).

Definition decode (b : list Z) : M (list Z) :=
  match ansi_decode b with Some t => ret t | None => raise UnicodeDecodeError end.

(** [for i in range(nb): ret = self.query_device(struct.pack('<BB', code, i));
    acc += unpack_first('<f', ret)] *)
Fixpoint read_list (code : Z) (i : Z) (k : nat) : M (list F) :=
  match k with
  | O => ret []
  | S k' =>
      r <- query_device [code; i] 10 ;;
      if (List.length r <? 4)%nat then raise unpack_error else
      rest <- read_list code (i + 1) k' ;;
      ret (unpack_f (slice4 0 r) :: rest)
  end.

Definition read_count_and_list (count_code item_code : Z) : M (list F) :=
  r <- query_device [count_code] 10 ;;
  match r with
  | nb :: _ => read_list item_code 0 (Z.to_nat nb)
  | [] => raise unpack_error
  end.

Definition populate_device_descr : M (DeviceDescriptor F) :=
  r0 <- query_device [0] 10 ;;
  ident <- decode (fst (partition0 r0)) ;;
  match split_comma ident with
  | manuf :: mdl :: ser :: _ =>
      r58 <- query_device [58] 10 ;;
      firm <- decode (fst (partition0 r58)) ;;
      r187 <- query_device [187] 10 ;;
      if (List.length r187 <? 8)%nat then raise unpack_error else
      let low_wl := unpack_f (slice4 0 r187) in
      let high_wl := unpack_f (slice4 4 r187) in
      let '(fiber_bytes, rest) := partition0 (skipn 18 r187) in
      fiber_type <- decode fiber_bytes ;;
      if (List.length rest <? 8)%nat then raise unpack_error else
      let attLin := unpack_f (slice4 0 rest) in
      let attRep := unpack_f (slice4 4 rest) in
      wl_list <- read_count_and_list 165 167 ;;
      att_steps <- read_count_and_list 161 163 ;;
      ret (mkDescriptor (strip_space manuf) (strip_space mdl) (strip_space ser)
             firm fiber_type (low_wl, high_wl) attLin attRep wl_list att_steps)
  | _ => raise (ValueError "not enough values to unpack (expected at least 3)")
  end.

(** ** The public operations of a session *)

Inductive op : Type :=
| OpQuery (command : list Z) (retry : Z)
| OpClose
| OpStatus
| OpCurrentState
| OpGetWavelength
| OpSetWavelength (v : F)
| OpGetAttenuation
| OpSetAttenuation (v : F)
| OpSetRemote (remote : bool)
| OpPopulate
| OpDoZero (wait_for_end : bool).

Definition run_op (fuel : nat) (o : op) : M unit :=
  match o with
  | OpQuery c r => query_device c r ;;; ret tt
  | OpClose => close
  | OpStatus => status ;;; ret tt
  | OpCurrentState => current_state ;;; ret tt
  | OpGetWavelength => get_wavelength ;;; ret tt
  | OpSetWavelength v => set_wavelength fuel v
  | OpGetAttenuation => get_attenuation ;;; ret tt
  | OpSetAttenuation v => set_attenuation fuel v
  | OpSetRemote b => set_remote b
  | OpPopulate => populate_device_descr ;;; ret tt
  | OpDoZero w => do_zero_device fuel w
  end.

(** A caller running operations one after the other, catching every
    exception an operation raises and going on with the next one. *)
Fixpoint run_ops (fuel : nat) (os : list op) : M unit :=
  match os with
  | [] => ret tt
  | o :: os' => try_ (run_op fuel o) ;;; run_ops fuel os'
  end.

End Driver.

(** ** Session bring-up ([FVA600.__init__], from [self.is_closed = False])

    [FT_Open] has returned the handle; the constructor configures it, puts
    the device in remote mode and reads the device descriptor, twice if the
    first read fails. *)

(** The configuration calls of D2XX used by the constructor; each returns
    its status code (checked by [Check_FT]) and the new handle. *)
Class USBSetup (D : Type) := {
  ft_set_timeouts : D -> Z -> Z -> Z * D;
  ft_set_latency : D -> Z -> Z * D;
  ft_set_baud_rate : D -> Z -> Z * D;
  ft_set_data_characteristics : D -> Z -> Z -> Z -> Z * D;
  ft_set_flow_control : D -> Z -> Z -> Z -> Z * D
}.

Section Bringup.
Context {D : Type} `{Transport D} `{USBSetup D} {F : Type} `{FloatOps F} `{AnsiCodec}.

Local Notation "x <- m ;; k" := (bind m (fun x => k))
  (at level 61, m at next level, right associativity).
Local Notation "m ;;; k" := (bind m (fun _ => k))
  (at level 61, right associativity).

(** A configuration call on the handle, its status checked. *)
Definition usb_call (f : D -> Z * D) : @M D F unit :=
  s <- get ;;
  let '(st, d) := f (HANDLE s) in
  set_handle d ;;; raise_opt (Check_FT st).

(** [self.device_descriptor = ...] *)
Definition set_descriptor (d : DeviceDescriptor F) : @M D F unit :=
  fun s => (Ret tt, mkFVA600 (is_closed s) (HANDLE s) (trace s) d).

(** [try: populate / except: try: populate / except: self.close();
    raise SystemError(...)] *)
Definition read_descriptor_twice : @M D F unit :=
  r1 <- try_ populate_device_descr ;;
  match r1 with
  | inl d => set_descriptor d
  | inr _ =>
      r2 <- try_ populate_device_descr ;;
      match r2 with
      | inl d => set_descriptor d
      | inr _ => close ;;; raise (SystemError "Device properties read : failure")
      end
  end.

Definition init_session : @M D F unit :=
  set_closed false ;;;
  usb_call (fun h => ft_set_timeouts h 2000 2000) ;;;
  usb_call (fun h => ft_set_latency h 100) ;;;
  usb_call (fun h => ft_set_baud_rate h 115200) ;;;
  usb_call (fun h => ft_set_data_characteristics h 8 0 0) ;;;
  usb_call (fun h => ft_set_flow_control h 0 0 0) ;;;
  set_remote true ;;;
  read_descriptor_twice.

End Bringup.

(** ** Device enumeration ([list_devices]) *)

(** [FT_ListDevices] in its two uses: the number of devices (flag
    0x80000000, LIST_NUMBER_ONLY), and the description of device [i] (flag
    0x40000002, LIST_BY_INDEX | OPEN_BY_DESCRIPTION) as the bytes written in
    the 64-byte buffer.  Each gives its status code first. *)
Class Enumerator := {
  ft_list_number : Z * Z;
  ft_list_by_index : Z -> Z * list Z
}.

Section Enumeration.
Context `{AnsiCodec} `{Enumerator}.

(** [str.startswith(p)] on code points. *)
Fixpoint starts_with (p t : list Z) : bool :=
  match p, t with
  | [], _ => true
  | c :: p', d :: t' => (c =? d) && starts_with p' t'
  | _ :: _, [] => false
  end.

(** "FVA" *)
Definition FVA_prefix : list Z := [70; 86; 65].

(** The body of the [try] block for index [i]: [true] when [i] is added to
    the list; any exception (a bad USB status, a decode error) is swallowed
    by the bare [except: pass] and the device is skipped. *)
Definition id_matches (i : Z) : bool :=
  let '(st, buf) := ft_list_by_index i in
  match Check_FT st with
  | Some _ => false
  | None =>
      (* ID.value: the 64-byte buffer up to its first NUL *)
      match ansi_decode (fst (partition0 (string_buffer 64 buf))) with
      | None => false
      | Some t => starts_with FVA_prefix t
      end
  end.

(** [for i in range(...)], from index [i], [k] rounds. *)
Fixpoint scan_devices (i : Z) (k : nat) : list Z :=
  match k with
  | O => []
  | S k' => (if id_matches i then [i] else []) ++ scan_devices (i + 1) k'
  end.

(** [NB_DEVICES] is a DWORD: the count is read modulo 2^32. *)
Definition list_devices : outcome (list Z) :=
  let '(st, nb) := ft_list_number in
  match Check_FT st with
  | Some e => Raise e
  | None =>
      match scan_devices 0 (Z.to_nat (Z.land nb 4294967295)) with
      | [] => Raise (SystemError "No compatible device found !")
      | list_serial_numbers => Ret list_serial_numbers
      end
  end.

End Enumeration.

(** ** A scripted fake device, for tests

    Each write consumes the next scripted response, which becomes the bytes
    waiting to be read; a purge drops the waiting bytes. *)

Record FakeDev := mkFake { script : list (list Z); rx : list Z }.

#[export] Instance fake_transport : Transport FakeDev := {
  ft_purge d _ := (0, mkFake (script d) []);
  ft_write d buf :=
    match script d with
    | r :: rest => (0, Z.of_nat (length buf), mkFake rest r)
    | [] => (0, Z.of_nat (length buf), mkFake [] [])
    end;
  ft_read d n := (0, firstn (Z.to_nat n) (rx d), mkFake (script d) (skipn (Z.to_nat n) (rx d)));
  ft_close d := (0, d)
}.

(** Device values as integers (whole nanometres or dB), little-endian. *)
#[export] Instance int_float_ops : FloatOps Z := {
  flt_lt := Z.ltb;
  flt_repr := int_repr;
  pack_f z := [Z.land z 255; Z.land (Z.shiftr z 8) 255;
               Z.land (Z.shiftr z 16) 255; Z.land (Z.shiftr z 24) 255];
  unpack_f bs := fold_right (fun b acc => b + 256 * acc) 0 bs;
  round2 z := z
}.

#[export] Instance latin_codec : AnsiCodec := { ansi_decode b := Some b }.

(** A response with device error code [code] and no body. *)
Definition err_reply (code : Z) : list Z := [code; 0; 0].

(** A successful response carrying [body]. *)
Definition ok_reply (body : list Z) : list Z :=
  [0; Z.land (Z.of_nat (length body)) 255; Z.shiftr (Z.of_nat (length body)) 8] ++ body.

Definition test_descriptor : DeviceDescriptor Z :=
  mkDescriptor [] [] [] [] [] (1260, 1650) 0 0 [1310; 1550] [].

Definition fake_session (closed : bool) (replies : list (list Z)) : FVA600 FakeDev Z :=
  mkFVA600 closed (mkFake replies []) [] test_descriptor.

(** The request frame of a command as the claims describe it:
    [len:u16-LE][payload][crc16:u16-LE], the CRC taken over length and payload. *)
Definition le16 (n : Z) : list Z := [Z.land n 255; Z.land (Z.shiftr n 8) 255].

Definition spec_frame (payload : list Z) : list Z :=
  let hdr := le16 (Z.of_nat (length payload)) in
  hdr ++ payload ++ le16 (crc16 (hdr ++ payload)).

(** The calls made on the handle by one pass of the retry loop of
    [query_device]. *)
Definition attempt_events (frame : list Z) : list event :=
  [EvPurge 3; EvWrite frame; EvRead 3].

(** A method that never resets [is_closed] to false. *)
Definition keeps_closed {D F A : Type} (m : @M D F A) : Prop :=
  forall s, is_closed s = true -> is_closed (snd (m s)) = true.

(** One failed round of the outer loop of [do_zero_device]: the attempt
    raises [e], the status read in the [except] block is not CORRECTING, and
    the loop goes on from the returned session. *)
Definition zero_round {D : Type} `{Transport D} {F : Type}
  (attempt : @M D F (list Z)) (s : FVA600 D F) : option (exn * FVA600 D F) :=
  match attempt s with
  | (Raise e, s1) =>
      match status s1 with
      | (Ret st, s2) => if status_eqb st CORRECTING then None else Some (e, s2)
      | _ => None
      end
  | _ => None
  end.

(** [l] lists consecutive failed rounds from [s]: their errors and the
    session after each. *)
Fixpoint failing_rounds {D : Type} `{Transport D} {F : Type}
  (attempt : @M D F (list Z)) (s : FVA600 D F) (l : list (exn * FVA600 D F))
  : Prop :=
  match l with
  | [] => True
  | (e, s1) :: l' => zero_round attempt s = Some (e, s1) /\ failing_rounds attempt s1 l'
  end.

(** The failed rounds from [s], at most [n] of them. *)
Fixpoint unroll_rounds {D : Type} `{Transport D} {F : Type}
  (attempt : @M D F (list Z)) (s : FVA600 D F) (n : nat) : list (exn * FVA600 D F) :=
  match n with
  | O => []
  | S n' =>
      match zero_round attempt s with
      | Some (e, s1) => (e, s1) :: unroll_rounds attempt s1 n'
      | None => []
      end
  end.

(** The buffers written to the handle, in order, in a piece of trace. *)
Fixpoint writes (l : list event) : list (list Z) :=
  match l with
  | [] => []
  | EvWrite b :: l' => b :: writes l'
  | _ :: l' => writes l'
  end.

(** A method that only appends to the trace: every buffer it writes
    satisfies [P], it writes at most [k] of them and never closes the
    handle. *)
Definition io_bound {D F A : Type} (P : list Z -> Prop) (k : nat) (m : @M D F A) : Prop :=
  forall s, exists added, trace (snd (m s)) = trace s ++ added /\
    Forall P (writes added) /\ (length (writes added) <= k)%nat /\ ~ In EvClose added.

(** A method that leaves [is_closed] as it found it. *)
Definition keeps_flag {D F A : Type} (m : @M D F A) : Prop :=
  forall s, is_closed (snd (m s)) = is_closed s.

(** The calls made by one successful status read on the first attempt. *)
Definition status_frame : list Z := [1; 0; 188; 33; 177].

Definition status_events : list event :=
  attempt_events status_frame ++ [EvRead 3; EvPurge 3].

(** A fake enumeration: device [i] reports the description [ids[i]]. *)
Definition fake_enum (ids : list (list Z)) : Enumerator := {|
  ft_list_number := (0, Z.of_nat (length ids));
  ft_list_by_index i := (0, nth (Z.to_nat i) ids [])
|}.

(** A fake handle configuration: every call succeeds. *)
#[export] Instance fake_setup : USBSetup FakeDev := {
  ft_set_timeouts d _ _ := (0, d);
  ft_set_latency d _ := (0, d);
  ft_set_baud_rate d _ := (0, d);
  ft_set_data_characteristics d _ _ _ := (0, d);
  ft_set_flow_control d _ _ _ := (0, d)
}.

(** The replies of a device answering every query of
    [populate_device_descr]: identity "A , B,C", firmware "1", a fibre
    type "SM", two wavelengths and no attenuation step. *)
Definition populate_script : list (list Z) :=
  [ok_reply [65; 32; 44; 32; 66; 44; 67; 0]; ok_reply [49; 0];
   ok_reply ([30; 5; 0; 0; 14; 6; 0; 0] ++ repeat 0 10 ++ [83; 77; 0] ++ [1; 0; 0; 0; 2; 0; 0; 0]);
   ok_reply [2]; ok_reply [30; 5; 0; 0]; ok_reply [14; 6; 0; 0]; ok_reply [0]].

(** * Proofs *)

Section Proofs.
Context {D : Type} `{Transport D} {F : Type} `{FloatOps F} `{AnsiCodec}.

Implicit Types s : FVA600 D F.

(** ** [is_closed] only ever goes from false to true *)

Lemma keeps_ret {A} (a : A) : keeps_closed (D := D) (F := F) (ret a).
Proof. intros s Hs; exact Hs. Qed.

Lemma keeps_raise {A} e : keeps_closed (D := D) (F := F) (A := A) (raise e).
Proof. intros s Hs; exact Hs. Qed.

Lemma keeps_spin {A} : keeps_closed (D := D) (F := F) (A := A) spin.
Proof. intros s Hs; exact Hs. Qed.

Lemma keeps_get : keeps_closed (D := D) (F := F) get.
Proof. intros s Hs; exact Hs. Qed.

Lemma keeps_bind {A B} (m : @M D F A) (k : A -> @M D F B) :
  keeps_closed m -> (forall a, keeps_closed (k a)) -> keeps_closed (bind m k).
Proof.
  intros Hm Hk s Hs; unfold bind.
  specialize (Hm s Hs).
  destruct (m s) as [[a|e|] s']; simpl in *; [apply Hk| |]; auto.
Qed.

Lemma keeps_try {A} (m : @M D F A) : keeps_closed m -> keeps_closed (try_ m).
Proof.
  intros Hm s Hs; unfold try_.
  specialize (Hm s Hs).
  destruct (m s) as [[a|e|] s']; simpl in *; auto.
Qed.

Lemma keeps_log ev : keeps_closed (D := D) (F := F) (log ev).
Proof. intros s Hs; exact Hs. Qed.

Lemma keeps_set_handle (d : D) : keeps_closed (F := F) (set_handle d).
Proof. intros s Hs; exact Hs. Qed.

Lemma keeps_set_closed_true : keeps_closed (D := D) (F := F) (set_closed true).
Proof. intros s _; reflexivity. Qed.

Lemma keeps_raise_opt o : keeps_closed (D := D) (F := F) (raise_opt o).
Proof. destruct o; intros s Hs; exact Hs. Qed.

Create HintDb keeps.
#[local] Hint Resolve keeps_ret keeps_raise keeps_spin keeps_get keeps_log
  keeps_set_handle keeps_set_closed_true keeps_raise_opt : keeps.

Ltac keeps_step :=
  match goal with
  | |- keeps_closed (bind _ _) => apply keeps_bind; [ | intro ]
  | |- keeps_closed (try_ _) => apply keeps_try
  | |- keeps_closed (match ?x with _ => _ end) => destruct x
  | |- keeps_closed (if ?b then _ else _) => destruct b
  | |- keeps_closed _ => solve [ eauto with keeps ]
  end.

Ltac keeps_auto := repeat keeps_step.

Lemma keeps_USBPurge m : keeps_closed (D := D) (F := F) (USBPurge m).
Proof. unfold USBPurge; keeps_auto. Qed.

Lemma keeps_USBWrite b : keeps_closed (D := D) (F := F) (USBWrite b).
Proof. unfold USBWrite; keeps_auto. Qed.

Lemma keeps_USBRead n : keeps_closed (D := D) (F := F) (USBRead n).
Proof. unfold USBRead; keeps_auto. Qed.

Lemma keeps_USBClose : keeps_closed (D := D) (F := F) USBClose.
Proof. unfold USBClose; keeps_auto. Qed.

#[local] Hint Resolve keeps_USBPurge keeps_USBWrite keeps_USBRead keeps_USBClose : keeps.

Lemma keeps_query_attempt b : keeps_closed (D := D) (F := F) (query_attempt b).
Proof. unfold query_attempt; keeps_auto. Qed.
#[local] Hint Resolve keeps_query_attempt : keeps.

Lemma keeps_query_loop b n e : keeps_closed (D := D) (F := F) (query_loop b n e).
Proof. revert e; induction n; intro e; simpl; keeps_auto. Qed.
#[local] Hint Resolve keeps_query_loop : keeps.

Lemma keeps_query_device c r : keeps_closed (D := D) (F := F) (query_device c r).
Proof. unfold query_device; keeps_auto. Qed.
#[local] Hint Resolve keeps_query_device : keeps.

Lemma keeps_status : keeps_closed (D := D) (F := F) status.
Proof. unfold status; keeps_auto. Qed.
#[local] Hint Resolve keeps_status : keeps.

Lemma keeps_current_state : keeps_closed (D := D) (F := F) current_state.
Proof. unfold current_state; keeps_auto. Qed.
#[local] Hint Resolve keeps_current_state : keeps.

Lemma keeps_wait_while t f : keeps_closed (D := D) (F := F) (wait_while t f).
Proof. induction f; simpl; keeps_auto. Qed.
#[local] Hint Resolve keeps_wait_while : keeps.

Lemma keeps_set_remote b : keeps_closed (D := D) (F := F) (set_remote b).
Proof. unfold set_remote; keeps_auto. Qed.
#[local] Hint Resolve keeps_set_remote : keeps.

Lemma keeps_close : keeps_closed (D := D) (F := F) close.
Proof. unfold close; keeps_auto. Qed.
#[local] Hint Resolve keeps_close : keeps.

Lemma keeps_zero_retry_loop (a : @M D F (list Z)) n e :
  keeps_closed a -> keeps_closed (zero_retry_loop a n e).
Proof. intro Ha; revert e; induction n; intro e; simpl; keeps_auto. Qed.
#[local] Hint Resolve keeps_zero_retry_loop : keeps.

Lemma keeps_read_list c i k : keeps_closed (D := D) (F := F) (read_list c i k).
Proof. revert i; induction k; intro i; simpl; keeps_auto. Qed.
#[local] Hint Resolve keeps_read_list : keeps.

Lemma keeps_populate : keeps_closed (D := D) (F := F) populate_device_descr.
Proof.
  unfold populate_device_descr, read_count_and_list, decode; keeps_auto.
Qed.
#[local] Hint Resolve keeps_populate : keeps.

Lemma keeps_run_op fuel (o : @op F) : keeps_closed (D := D) (run_op fuel o).
Proof.
  destruct o; simpl;
    unfold get_wavelength, get_attenuation, set_wavelength, set_attenuation,
      do_zero_device; keeps_auto.
Qed.
#[local] Hint Resolve keeps_run_op : keeps.

Lemma keeps_run_ops fuel (os : list (@op F)) : keeps_closed (D := D) (run_ops fuel os).
Proof. induction os; simpl; keeps_auto. Qed.

(** ** Session lifecycle *)

(** Claim C9: on a session whose [is_closed] flag is set, [query_device]
    raises the session-closed SystemError at once: the returned session is the
    one given, so no frame was sent and no purge, write or read was made. *)
Theorem query_device_closed_fails_fast :
  forall s command retry,
    is_closed s = true ->
    query_device command retry s = (Raise closed_error, s).
Proof.
  intros s command retry Hc.
  unfold query_device, bind, get; simpl.
  rewrite Hc; reflexivity.
Qed.

Lemma decode_status_not_disconnected f1 f2 f3 :
  decode_status f1 f2 f3 <> DISCONNECTED.
Proof.
  unfold decode_status.
  destruct (f2 =? 1), (f1 =? 1), (f3 =? 1); discriminate.
Qed.

(** Claim C10: reading [status] on a closed session returns DISCONNECTED with
    the session unchanged (no transport call, no status query 188); on an open
    session, [status] never returns DISCONNECTED. *)
Theorem status_closed_disconnected :
  (forall s, is_closed s = true -> status s = (Ret DISCONNECTED, s)) /\
  (forall s, is_closed s = false -> fst (status s) <> Ret DISCONNECTED).
Proof.
  split.
  - intros s Hc; unfold status, bind, get; simpl; rewrite Hc; reflexivity.
  - intros s Hc; unfold status, bind, get; simpl; rewrite Hc.
    destruct (query_device [188] 10 s) as [[r|e|] s']; simpl; try discriminate.
    destruct r as [|f1 [|f2 [|f3 r]]]; simpl; try discriminate.
    intro Heq; inversion Heq as [Hd].
    exact (decode_status_not_disconnected _ _ _ Hd).
Qed.

(** Claim C7: [close] on a closed session does nothing and raises nothing
    (no set-local query, no second transport close); a close that returns
    leaves the session closed, and closing it again changes nothing; once
    closed, whatever public operations are run afterwards (their exceptions
    caught by the caller), [is_closed] stays true. *)
Theorem close_idempotent :
  (forall s, is_closed s = true -> close s = (Ret tt, s)) /\
  (forall s s1, close s = (Ret tt, s1) ->
     is_closed s1 = true /\ close s1 = (Ret tt, s1)) /\
  (forall fuel os s, is_closed s = true ->
     is_closed (snd (run_ops fuel os s)) = true).
Proof.
  assert (Hclosed : forall s, is_closed s = true -> close s = (Ret tt, s)).
  { intros s Hc; unfold close, bind, get; simpl; rewrite Hc; reflexivity. }
  split; [exact Hclosed | split].
  - intros s s1 Hcl.
    destruct (is_closed s) eqn:Hc.
    + rewrite (Hclosed s Hc) in Hcl; inversion Hcl; subst; auto.
    + unfold close, bind, get in Hcl; cbn -[set_remote USBClose] in Hcl.
      rewrite Hc in Hcl; cbn -[set_remote USBClose] in Hcl.
      destruct (set_remote false s) as [[u|e|] s2]; try discriminate.
      destruct (USBClose s2) as [[u'|e|] s3]; try discriminate.
      unfold set_closed in Hcl; inversion Hcl; subst.
      split; [reflexivity | apply Hclosed; reflexivity].
  - intros fuel os s Hc; exact (keeps_run_ops fuel os s Hc).
Qed.

(** ** Wavelength setter *)

(** Claim C4: a value strictly below the descriptor's wavelength low bound or
    strictly above its high bound makes the [wavelength] setter raise a
    ValueError with the session unchanged: no transport write or read, and
    the range is the one of [device_descriptor], no query is made. *)
Theorem set_wavelength_out_of_range :
  forall fuel v s,
    flt_lt v (fst (wavelengthRange (device_descriptor s))) = true \/
    flt_lt (snd (wavelengthRange (device_descriptor s))) v = true ->
    exists msg, set_wavelength fuel v s = (Raise (ValueError msg), s).
Proof.
  intros fuel v s Hout.
  unfold set_wavelength, bind, get; simpl.
  destruct (flt_lt v (fst (wavelengthRange (device_descriptor s)))) eqn:Hlo.
  - eexists; reflexivity.
  - destruct Hout as [Hout | Hout]; [discriminate |].
    rewrite Hout; eexists; reflexivity.
Qed.

(** ** Zero calibration *)

(** Claim C5: when the status read at the start of [do_zero_device] is not
    IDLE, the call raises a DeviceError naming that status, and the session
    it leaves is the one left by that status query: nothing else is sent, in
    particular not the zero command 186. *)
Theorem do_zero_not_idle :
  forall fuel wait_for_end s stat s1,
    status s = (Ret stat, s1) ->
    stat <> IDLE ->
    do_zero_device fuel wait_for_end s =
      (Raise (DeviceError (append "The device is not idle : status "
                                  (status_name stat))), s1).
Proof.
  intros fuel w s stat s1 Hst Hne.
  unfold do_zero_device, bind at 1; rewrite Hst.
  destruct stat; try (exfalso; apply Hne; reflexivity); reflexivity.
Qed.

(** ** Retry budget 0 *)

(** Claim C1 (defect): [query_device command 0] on an open session makes no
    attempt at all: [range(0)] is empty, the [else] branch runs and
    [raise last_error] fails on the unbound variable.  No purge, write or read
    is made. *)
Theorem query_device_retry0_no_attempt :
  forall s command frame,
    is_closed s = false ->
    encode_frame command = Some frame ->
    query_device command 0 s = (Raise (UnboundLocalError "last_error"), s).
Proof.
  intros s command frame Hc He.
  unfold query_device, bind, get; simpl.
  rewrite Hc, He; reflexivity.
Qed.

(** ** Status flags *)

(** Claim C3: the status decoded from the 3 flag bytes [settling, correcting,
    defective] of the answer to command 188 follows the precedence
    CORRECTING > SETTLING > DEFECTIVE > IDLE. *)
Theorem status_flag_precedence :
  forall s s' settling correcting defective rest,
    is_closed s = false ->
    query_device [188] 10 s = (Ret (settling :: correcting :: defective :: rest), s') ->
    exists x, status s = (Ret x, s') /\
      (correcting = 1 -> x = CORRECTING) /\
      (correcting <> 1 -> settling = 1 -> x = SETTLING) /\
      (correcting <> 1 -> settling <> 1 -> defective = 1 -> x = DEFECTIVE) /\
      (correcting <> 1 -> settling <> 1 -> defective <> 1 -> x = IDLE).
Proof.
  intros s s' f1 f2 f3 rest Hc Hq.
  exists (decode_status f1 f2 f3).
  split.
  { unfold status, bind, get; simpl; rewrite Hc, Hq; reflexivity. }
  unfold decode_status.
  repeat split; intros;
    repeat match goal with
           | H : ?a = 1 |- _ => apply Z.eqb_eq in H; rewrite H
           | H : ?a <> 1 |- _ => apply Z.eqb_neq in H; rewrite H
           end; reflexivity.
Qed.

(** ** Request frame *)

Lemma land255_small (n : Z) : 0 <= n < 256 -> Z.land n 255 = n.
Proof.
  intro Hn. change 255 with (Z.ones 8).
  rewrite Z.land_ones by lia. apply Z.mod_small; simpl; lia.
Qed.

Lemma shiftr8_small (n : Z) : 0 <= n <= 65535 -> 0 <= Z.shiftr n 8 < 256.
Proof.
  intro Hn. rewrite Z.shiftr_div_pow2 by lia. simpl.
  split; [apply Z.div_pos; lia | apply Z.div_lt_upper_bound; lia].
Qed.

Lemma pack_H_le16 (n : Z) : 0 <= n <= 65535 -> pack_H n = Some (le16 n).
Proof.
  intro Hn. unfold pack_H, le16.
  replace ((0 <=? n) && (n <=? 65535)) with true
    by (symmetry; apply andb_true_iff; split; apply Z.leb_le; lia).
  rewrite (land255_small (Z.shiftr n 8)) by (apply shiftr8_small; lia).
  reflexivity.
Qed.

Lemma pack_s_exact (b : list Z) : pack_s (length b) b = b.
Proof.
  unfold pack_s. rewrite firstn_all, Nat.sub_diag. apply app_nil_r.
Qed.

Definition in16 (c : Z) : Prop := 0 <= c < 2 ^ 16.

Lemma log2_lt16 (a : Z) : in16 a -> Z.log2 a < 16.
Proof.
  unfold in16; intro Ha.
  destruct (Z.eq_dec a 0) as [->|Hne]; [simpl; lia|].
  apply Z.log2_lt_pow2; lia.
Qed.

Lemma lxor_in16 (a b : Z) : in16 a -> in16 b -> in16 (Z.lxor a b).
Proof.
  intros Ha Hb.
  assert (Hpos : 0 <= Z.lxor a b)
    by (apply Z.lxor_nonneg; unfold in16 in *; split; intro; lia).
  split; [exact Hpos|].
  destruct (Z.eq_dec (Z.lxor a b) 0) as [->|Hne]; [lia|].
  apply Z.log2_lt_pow2; [lia|].
  pose proof (Z.log2_lxor a b) as Hl.
  pose proof (log2_lt16 a Ha). pose proof (log2_lt16 b Hb).
  unfold in16 in *. specialize (Hl ltac:(lia) ltac:(lia)). lia.
Qed.

Lemma shiftr1_in16 (c : Z) : in16 c -> in16 (Z.shiftr c 1).
Proof.
  unfold in16; intro Hc. rewrite Z.shiftr_div_pow2 by lia. simpl.
  split; [apply Z.div_pos; lia | apply Z.div_lt_upper_bound; lia].
Qed.

Lemma crc_shift_in16 (k : nat) (c : Z) : in16 c -> in16 (crc_shift k c).
Proof.
  revert c; induction k as [|k IH]; intros c Hc; cbn [crc_shift]; [exact Hc|].
  apply IH. destruct (Z.testbit c 0); fold (in16 (Z.shiftr c 1)).
  - apply lxor_in16; [apply shiftr1_in16; exact Hc | unfold in16; simpl; lia].
  - apply shiftr1_in16; exact Hc.
Qed.

Lemma crc_byte_in16 (c b : Z) : in16 c -> in16 (crc_byte c b).
Proof.
  intro Hc. unfold crc_byte. apply crc_shift_in16, lxor_in16; [exact Hc|].
  change 255 with (Z.ones 8). rewrite Z.land_ones by lia.
  pose proof (Z.mod_pos_bound b (2 ^ 8) ltac:(lia)). unfold in16; simpl in *; lia.
Qed.

Lemma crc16_in16 (data : list Z) : in16 (crc16 data).
Proof.
  unfold crc16.
  assert (Hgen : forall acc, in16 acc -> in16 (fold_left crc_byte data acc)).
  { induction data as [|b data IH]; intros acc Hacc; simpl; auto.
    apply IH, crc_byte_in16, Hacc. }
  apply Hgen. unfold in16; simpl; lia.
Qed.

(** Claim C8 (as amended): for every payload of at most 65535 bytes the
    request frame built by [query_device] is the little-endian u16 length,
    the payload, and the little-endian u16 CRC-16/MODBUS of length and
    payload; a longer payload is refused by struct.pack ('<H') and no frame
    is built. *)
Theorem encode_frame_layout :
  forall payload,
    (Z.of_nat (length payload) <= 65535 -> encode_frame payload = Some (spec_frame payload)) /\
    (65535 < Z.of_nat (length payload) -> encode_frame payload = None).
Proof.
  intro payload. split; intro Hlen.
  - unfold encode_frame, spec_frame.
    rewrite pack_H_le16 by lia.
    rewrite pack_s_exact, pack_s_exact.
    pose proof (crc16_in16 (le16 (Z.of_nat (length payload)) ++ payload)) as Hc.
    unfold in16 in Hc; change (2 ^ 16) with 65536 in Hc.
    rewrite pack_H_le16 by lia.
    rewrite <- app_assoc; reflexivity.
  - unfold encode_frame, pack_H.
    replace ((0 <=? Z.of_nat (length payload)) && (Z.of_nat (length payload) <=? 65535))
      with false; [reflexivity|].
    symmetry; apply andb_false_iff; right; apply Z.leb_gt; lia.
Qed.

End Proofs.

(** ** Retry bound, against the scripted fake device *)

Section FakeProofs.
Context {F : Type} `{FloatOps F} `{AnsiCodec}.

Implicit Types s : FVA600 FakeDev F.

Lemma CheckDeviceError_nonzero (c : Z) :
  0 < c -> exists e, CheckDeviceError c = Some e /\ is_DeviceError e = true.
Proof.
  intro Hc. unfold CheckDeviceError.
  destruct (enum_lookup c DeviceErrorTypes).
  - replace (c =? 0) with false by (symmetry; apply Z.eqb_neq; lia).
    eexists; split; reflexivity.
  - eexists; split; reflexivity.
Qed.

Lemma header_length (L : Z) :
  0 <= L <= 65535 ->
  Z.land (Z.land L 255) 255 + 256 * Z.land (Z.shiftr L 8) 255 = L.
Proof.
  intro HL.
  rewrite (land255_small (Z.shiftr L 8)) by (apply shiftr8_small; lia).
  rewrite <- Z.land_assoc. change (Z.land 255 255) with (Z.ones 8).
  rewrite Z.land_ones, Z.shiftr_div_pow2 by lia.
  pose proof (Z.div_mod L (2 ^ 8) ltac:(lia)). lia.
Qed.

Lemma attempt_device_error s frame c script' rx0 :
  0 < c < 256 ->
  HANDLE s = mkFake (err_reply c :: script') rx0 ->
  exists e, CheckDeviceError c = Some e /\ is_DeviceError e = true /\
    query_attempt frame s =
      (Raise e, mkFVA600 (is_closed s) (mkFake script' [])
                   (trace s ++ attempt_events frame) (device_descriptor s)).
Proof.
  intros Hc Hh.
  destruct (CheckDeviceError_nonzero c ltac:(lia)) as [e [He Hde]].
  exists e; split; [exact He | split; [exact Hde|]].
  destruct s as [cl h t dd]; simpl in Hh; subst h.
  unfold query_attempt, USBPurge, USBWrite, USBRead, bind, log, get, set_handle,
    raise_opt, ret, raise, err_reply, string_buffer; simpl.
  rewrite Z.eqb_refl; simpl.
  rewrite (land255_small c) by lia. rewrite He.
  rewrite <- !app_assoc; reflexivity.
Qed.

Lemma attempt_ok s frame body rest rx0 :
  Z.of_nat (length body) <= 65535 ->
  HANDLE s = mkFake (ok_reply body :: rest) rx0 ->
  query_attempt frame s =
    (Ret (Z.of_nat (length body)),
     mkFVA600 (is_closed s) (mkFake rest body)
              (trace s ++ attempt_events frame) (device_descriptor s)).
Proof.
  intros HL Hh.
  destruct s as [cl h t dd]; simpl in Hh; subst h.
  unfold query_attempt, USBPurge, USBWrite, USBRead, bind, log, get, set_handle,
    raise_opt, ret, raise, ok_reply, string_buffer.
  cbn -[Z.mul Z.add Z.land Z.shiftr Z.of_nat].
  rewrite Z.eqb_refl.
  change (Pos.to_nat 3) with 3%nat.
  cbn -[Z.mul Z.add Z.land Z.shiftr Z.of_nat].
  rewrite header_length by lia.
  rewrite <- !app_assoc; reflexivity.
Qed.

Lemma query_loop_script codes :
  forall n s frame last body rest rx0,
    Forall (fun c => 0 < c < 256) codes ->
    Z.of_nat (length body) <= 65535 ->
    HANDLE s = mkFake (map err_reply codes ++ ok_reply body :: rest) rx0 ->
    ((length codes < n)%nat ->
       query_loop frame n last s =
         (Ret (Z.of_nat (length body)),
          mkFVA600 (is_closed s) (mkFake rest body)
            (trace s ++ concat (repeat (attempt_events frame) (S (length codes))))
            (device_descriptor s))) /\
    ((1 <= n <= length codes)%nat ->
       exists e, CheckDeviceError (nth (n - 1) codes 0) = Some e /\
         query_loop frame n last s =
           (Raise e,
            mkFVA600 (is_closed s)
              (mkFake (map err_reply (skipn n codes) ++ ok_reply body :: rest) [])
              (trace s ++ concat (repeat (attempt_events frame) n))
              (device_descriptor s))).
Proof.
  induction codes as [|c cs IH]; intros n s frame last body rest rx0 Hcodes HL Hh.
  - split; [|simpl; lia].
    intro Hn. destruct n as [|n']; [simpl in Hn; lia|].
    cbn [query_loop]. unfold bind, try_.
    rewrite (attempt_ok s frame body rest rx0 HL Hh).
    unfold ret; simpl. rewrite ?app_nil_r; reflexivity.
  - inversion Hcodes as [|? ? Hc Hcs]; subst.
    destruct (attempt_device_error s frame c (map err_reply cs ++ ok_reply body :: rest)
                rx0 Hc Hh) as [e [He [Hde Hatt]]].
    set (s1 := mkFVA600 (is_closed s)
                 (mkFake (map err_reply cs ++ ok_reply body :: rest) [])
                 (trace s ++ attempt_events frame) (device_descriptor s)) in Hatt.
    destruct n as [|n']; [split; simpl; intro; lia|].
    assert (Hstep : query_loop frame (S n') last s = query_loop frame n' (Some e) s1).
    { cbn [query_loop]. unfold bind at 1, try_. rewrite Hatt. simpl.
      rewrite Hde. reflexivity. }
    rewrite Hstep.
    destruct (IH n' s1 frame (Some e) body rest [] Hcs HL eq_refl) as [IH1 IH2].
    split.
    + intro Hn. rewrite (IH1 ltac:(simpl in Hn; lia)).
      subst s1; simpl. rewrite <- app_assoc. reflexivity.
    + intro Hn. destruct n' as [|n''].
      * exists e. split; [exact He|].
        cbn [query_loop]. subst s1; simpl. rewrite ?app_nil_r; reflexivity.
      * destruct (IH2 ltac:(simpl in Hn; lia)) as [e' [He' Hq]].
        exists e'. split; [simpl in He' |- *; rewrite Nat.sub_0_r in He'; exact He'|].
        rewrite Hq. subst s1; simpl. rewrite <- app_assoc. reflexivity.
Qed.

Lemma string_buffer_exact (bs : list Z) :
  Forall (fun b => 0 <= b < 256) bs ->
  string_buffer (Z.of_nat (length bs)) bs = bs.
Proof.
  intro Hb. unfold string_buffer. rewrite Nat2Z.id.
  assert (Hm : map (fun b => Z.land b 255) bs = bs).
  { induction Hb as [|b bs Hb1 Hbs IHb]; simpl; [reflexivity|].
    rewrite land255_small by lia. rewrite IHb. reflexivity. }
  rewrite Hm. rewrite firstn_app, firstn_all, Nat.sub_diag. apply app_nil_r.
Qed.

Lemma read_body s body rest :
  HANDLE s = mkFake rest body ->
  USBRead (Z.of_nat (length body)) s =
    (Ret body, mkFVA600 (is_closed s) (mkFake rest [])
                 (trace s ++ [EvRead (Z.of_nat (length body))]) (device_descriptor s)).
Proof.
  intro Hh. destruct s as [cl h t dd]; simpl in Hh; subst h.
  unfold USBRead, bind, log, get, set_handle, raise_opt, ret; cbn -[Z.of_nat].
  rewrite Nat2Z.id, firstn_all, skipn_all. reflexivity.
Qed.

(** Claim C2: with a fake transport answering [k] device errors (codes
    [codes], k = length codes) and then a success carrying [body], and a retry
    budget [retry >= 1]: if k < retry, [query_device] returns [body] after
    exactly k+1 attempts (purge, write, read header each) followed by the body
    read and the final purge; if k >= retry, it raises the device error of
    attempt number [retry], the last one, after exactly [retry] attempts. *)
Theorem query_retry_bound :
  forall s command frame retry codes body rest rx0,
    is_closed s = false ->
    encode_frame command = Some frame ->
    HANDLE s = mkFake (map err_reply codes ++ ok_reply body :: rest) rx0 ->
    1 <= retry ->
    Forall (fun c => 0 < c < 256) codes ->
    Forall (fun b => 0 <= b < 256) body ->
    Z.of_nat (length body) <= 65535 ->
    (Z.of_nat (length codes) < retry ->
       query_device command retry s =
         (Ret body,
          mkFVA600 false (mkFake rest [])
            (trace s ++ concat (repeat (attempt_events frame) (S (length codes)))
               ++ [EvRead (Z.of_nat (length body)); EvPurge 3])
            (device_descriptor s))) /\
    (retry <= Z.of_nat (length codes) ->
       exists e, CheckDeviceError (nth (Z.to_nat retry - 1) codes 0) = Some e /\
         query_device command retry s =
           (Raise e,
            mkFVA600 false
              (mkFake (map err_reply (skipn (Z.to_nat retry) codes) ++ ok_reply body :: rest) [])
              (trace s ++ concat (repeat (attempt_events frame) (Z.to_nat retry)))
              (device_descriptor s))).
Proof.
  intros s command frame retry codes body rest rx0 Hc He Hh Hr Hcodes Hbody HL.
  destruct (query_loop_script codes (Z.to_nat retry) s frame None body rest rx0
              Hcodes HL Hh) as [L1 L2].
  rewrite Hc in L1, L2.
  assert (Hq : query_device command retry s =
    bind (query_loop frame (Z.to_nat retry) None) (fun length =>
      bind (USBRead length) (fun data =>
        if negb (Z.of_nat (List.length data) =? length) then raise timeout_error
        else bind (USBPurge 3) (fun _ => ret (string_buffer length data)))) s).
  { unfold query_device. unfold bind at 1, get. rewrite Hc, He. reflexivity. }
  split.
  - intro Hlt. rewrite Hq. unfold bind at 1.
    rewrite (L1 ltac:(lia)).
    unfold bind at 1. rewrite (read_body _ body rest) by reflexivity.
    cbn [is_closed HANDLE trace device_descriptor].
    rewrite Z.eqb_refl. simpl negb. cbv iota.
    unfold bind, USBPurge, log, get, set_handle, raise_opt, ret; cbn -[Z.of_nat].
    rewrite string_buffer_exact by exact Hbody.
    rewrite <- !app_assoc. reflexivity.
  - intro Hle. destruct (L2 ltac:(lia)) as [e [He' Hloop]].
    exists e. split; [exact He'|].
    rewrite Hq. unfold bind at 1. rewrite Hloop. reflexivity.
Qed.

End FakeProofs.

(** ** The outer retry loop of zero calibration *)

Section ZeroProofs.
Context {D : Type} `{Transport D} {F : Type}.

Implicit Types s : FVA600 D F.

Lemma last_cons_default {A} (a d : A) (l : list A) : last (a :: l) d = last l a.
Proof.
  revert a d; induction l as [|b l IH]; intros a d; [reflexivity|].
  change (last (a :: b :: l) d) with (last (b :: l) d).
  rewrite (IH b d). symmetry; apply IH.
Qed.

Lemma zero_round_some (attempt : @M D F (list Z)) s e s1 :
  zero_round attempt s = Some (e, s1) ->
  forall n cur, zero_retry_loop attempt (S n) cur s = zero_retry_loop attempt n (Some e) s1.
Proof.
  unfold zero_round. intros Hr n cur.
  destruct (attempt s) as [[v|e'|] sa] eqn:Ha; try discriminate.
  destruct (status sa) as [[x|e2|] s2] eqn:Hs; try discriminate.
  destruct (status_eqb x CORRECTING) eqn:Hx; try discriminate.
  inversion Hr; subst.
  cbn [zero_retry_loop]. unfold bind at 1, try_. rewrite Ha.
  unfold bind. rewrite Hs. rewrite Hx. reflexivity.
Qed.

Lemma zero_retry_loop_rounds (attempt : @M D F (list Z)) :
  forall l n cur s,
    failing_rounds attempt s l ->
    (length l = n -> l <> [] ->
       zero_retry_loop attempt n cur s =
         (Raise (fst (last l (UnboundLocalError "current_error", s))),
          snd (last l (UnboundLocalError "current_error", s)))) /\
    ((length l < n)%nat ->
       let sj := last (map snd l) s in
       (forall v s', attempt sj = (Ret v, s') ->
          zero_retry_loop attempt n cur s = (Ret tt, s')) /\
       (forall e s1 s2, attempt sj = (Raise e, s1) ->
          status s1 = (Ret CORRECTING, s2) ->
          zero_retry_loop attempt n cur s = (Ret tt, s2))).
Proof.
  induction l as [|[e s1] l IH]; intros n cur s Hl.
  - split; [intros _ Hne; congruence|].
    intros Hn sj; simpl in sj; subst sj.
    destruct n as [|n']; [simpl in Hn; lia|].
    split.
    + intros v s' Ha. cbn [zero_retry_loop]. unfold bind at 1, try_.
      rewrite Ha. reflexivity.
    + intros e s1 s2 Ha Hs. cbn [zero_retry_loop]. unfold bind at 1, try_.
      rewrite Ha. unfold bind. rewrite Hs. reflexivity.
  - destruct Hl as [Hr Hl].
    destruct n as [|n'].
    { split; intros Hn; simpl in Hn; lia. }
    rewrite (zero_round_some attempt s e s1 Hr n' cur).
    destruct (IH n' (Some e) s1 Hl) as [IH1 IH2].
    split.
    + intros Hn _. simpl in Hn.
      destruct l as [|p l'].
      * assert (n' = 0%nat) by (simpl in Hn; lia). subst n'. reflexivity.
      * rewrite last_cons_default.
        assert (Hlast : forall (q : exn * FVA600 D F) d1 d2,
                   last (q :: l') d1 = last (q :: l') d2).
        { intros q d1 d2. rewrite !last_cons_default. reflexivity. }
        rewrite (Hlast p (e, s1) (UnboundLocalError "current_error", s1)).
        apply IH1; [lia | discriminate].
    + intros Hn. simpl map. rewrite last_cons_default.
      apply IH2. simpl in Hn; lia.
Qed.

(** Claim C6: in the outer loop of [do_zero_device] (10 rounds, each making
    one attempt of the command), given the rounds [l] that failed in a row
    (the attempt raised, the status then read was not CORRECTING): after 10
    such rounds the loop raises the error of the last one; after fewer, the
    next round ends the loop with success when the attempt returns, or when
    it raises and the status read right after is CORRECTING. *)
Theorem zero_retry_loop_outcome :
  forall (attempt : @M D F (list Z)) s l,
    failing_rounds attempt s l ->
    (length l = 10%nat ->
       zero_retry_loop attempt 10 None s =
         (Raise (fst (last l (UnboundLocalError "current_error", s))),
          snd (last l (UnboundLocalError "current_error", s)))) /\
    ((length l < 10)%nat ->
       let sj := last (map snd l) s in
       (forall v s', attempt sj = (Ret v, s') ->
          zero_retry_loop attempt 10 None s = (Ret tt, s')) /\
       (forall e s1 s2, attempt sj = (Raise e, s1) ->
          status s1 = (Ret CORRECTING, s2) ->
          zero_retry_loop attempt 10 None s = (Ret tt, s2))).
Proof.
  intros attempt s l Hl.
  destruct (zero_retry_loop_rounds attempt l 10 None s Hl) as [H1 H2].
  split; [|exact H2].
  intro Hn. apply H1; [exact Hn|].
  intro Hnil; subst l; discriminate.
Qed.

Lemma unroll_rounds_failing (attempt : @M D F (list Z)) :
  forall n s, failing_rounds attempt s (unroll_rounds attempt s n).
Proof.
  induction n as [|n IH]; intro s; simpl; [exact I|].
  destruct (zero_round attempt s) as [[e s1]|] eqn:Hr; simpl; [|exact I].
  split; [exact Hr | apply IH].
Qed.

End ZeroProofs.

(** * Concrete runs on the scripted fake device *)

(** The CRC model gives the CRC-16/MODBUS check value 0x4B37 on "123456789". *)
Example crc16_check_value :
  crc16 [49; 50; 51; 52; 53; 54; 55; 56; 57] = 19255.
Proof. reflexivity. Qed.

Example status_query_frame : encode_frame [188] = Some [1; 0; 188; 33; 177].
Proof. reflexivity. Qed.

Example status_flags_111 :
  fst (status (fake_session false [ok_reply [1; 1; 1]])) = Ret CORRECTING.
Proof. vm_compute. reflexivity. Qed.

Example status_flags_101 :
  fst (status (fake_session false [ok_reply [1; 0; 1]])) = Ret SETTLING.
Proof. vm_compute. reflexivity. Qed.

Example status_flags_001 :
  fst (status (fake_session false [ok_reply [0; 0; 1]])) = Ret DEFECTIVE.
Proof. vm_compute. reflexivity. Qed.

Example status_flags_000 :
  fst (status (fake_session false [ok_reply [0; 0; 0]])) = Ret IDLE.
Proof. vm_compute. reflexivity. Qed.

(** Two device errors with a budget of 2: the second error is raised. *)
Example retry_budget_exhausted :
  fst (query_device [188] 2
         (fake_session false [err_reply 5; err_reply 200; ok_reply [0; 0; 0]]))
  = Raise (DeviceError "Unknown error : 200").
Proof. vm_compute. reflexivity. Qed.

(** On an idle device, [do_zero_device] never writes the zero command 186:
    every attempt of the outer loop raises UnboundLocalError, and after 10
    rounds that error is raised. *)
Example do_zero_never_sends_zero_command :
  let r := do_zero_device 5 true
             (fake_session false (repeat (ok_reply [0; 0; 0]) 11)) in
  fst r = Raise (UnboundLocalError "last_error") /\
  ~ In (EvWrite (spec_frame [186])) (trace (snd r)).
Proof.
  vm_compute. split; [reflexivity|].
  intro Hin; repeat (destruct Hin as [Hin|Hin]; [discriminate|]); exact Hin.
Qed.

(** ** Witnesses *)

Lemma query_device_closed_fails_fast_witness :
  query_device [188] 10 (fake_session true [])
  = (Raise closed_error, fake_session true []).
Proof. apply query_device_closed_fails_fast. reflexivity. Defined.

Lemma status_closed_disconnected_witness :
  status (fake_session true []) = (Ret DISCONNECTED, fake_session true []) /\
  fst (status (fake_session false [ok_reply [0; 0; 0]])) <> Ret DISCONNECTED.
Proof.
  split.
  - apply (proj1 status_closed_disconnected). reflexivity.
  - apply (proj2 status_closed_disconnected). reflexivity.
Defined.

Lemma close_idempotent_witness :
  close (fake_session true []) = (Ret tt, fake_session true []) /\
  is_closed (snd (close (fake_session false [ok_reply []]))) = true /\
  is_closed (snd (run_ops 3 [OpStatus; OpSetWavelength 1550; OpDoZero true]
                    (fake_session true []))) = true.
Proof.
  destruct (close_idempotent (D := FakeDev) (F := Z)) as [H1 [H2 H3]].
  assert (X : close (fake_session false [ok_reply []])
              = (Ret tt, snd (close (fake_session false [ok_reply []]))))
    by (vm_compute; reflexivity).
  split; [apply H1; reflexivity|split].
  - exact (proj1 (H2 _ _ X)).
  - apply H3. reflexivity.
Defined.

Lemma set_wavelength_out_of_range_witness :
  exists msg, set_wavelength 5 1700 (fake_session false [])
              = (Raise (ValueError msg), fake_session false []).
Proof.
  apply set_wavelength_out_of_range. right. vm_compute. reflexivity.
Defined.

Lemma do_zero_not_idle_witness :
  do_zero_device 5 true (fake_session false [ok_reply [1; 0; 0]])
  = (Raise (DeviceError "The device is not idle : status SETTLING"),
     snd (status (fake_session false [ok_reply [1; 0; 0]]))).
Proof.
  apply (do_zero_not_idle 5 true _ SETTLING).
  - vm_compute. reflexivity.
  - discriminate.
Defined.

Lemma query_device_retry0_no_attempt_witness :
  query_device [186] 0 (fake_session false [ok_reply []])
  = (Raise (UnboundLocalError "last_error"), fake_session false [ok_reply []]).
Proof.
  apply (query_device_retry0_no_attempt _ _
           (match encode_frame [186] with Some f => f | None => [] end)).
  - reflexivity.
  - vm_compute. reflexivity.
Defined.

Lemma status_flag_precedence_witness :
  let s0 := fake_session false [ok_reply [1; 1; 1]] in
  exists x, status s0 = (Ret x, snd (query_device [188] 10 s0)) /\
    (1 = 1 -> x = CORRECTING) /\
    (1 <> 1 -> 1 = 1 -> x = SETTLING) /\
    (1 <> 1 -> 1 <> 1 -> 1 = 1 -> x = DEFECTIVE) /\
    (1 <> 1 -> 1 <> 1 -> 1 <> 1 -> x = IDLE).
Proof.
  intro s0. apply (status_flag_precedence s0 _ 1 1 1 []).
  - reflexivity.
  - vm_compute. reflexivity.
Defined.

Lemma encode_frame_layout_witness :
  encode_frame [177; 30; 6; 0; 0] = Some (spec_frame [177; 30; 6; 0; 0]).
Proof. apply (proj1 (encode_frame_layout [177; 30; 6; 0; 0])). simpl. lia. Defined.

Lemma query_retry_bound_witness :
  let s0 := fake_session false (map err_reply [5; 200] ++ [ok_reply [1; 2; 3]]) in
  fst (query_device [188] 3 s0) = Ret [1; 2; 3].
Proof.
  intro s0.
  destruct (query_retry_bound s0 [188] [1; 0; 188; 33; 177] 3 [5; 200] [1; 2; 3] [] []
              eq_refl eq_refl eq_refl) as [Hok _].
  - lia.
  - repeat constructor; lia.
  - repeat constructor; lia.
  - simpl. lia.
  - rewrite Hok by (simpl; lia). reflexivity.
Defined.

Lemma zero_retry_loop_outcome_witness :
  let s0 := fake_session false (repeat (ok_reply [0; 0; 0]) 10) in
  let l := unroll_rounds (query_device [186] 0) s0 10 in
  fst (zero_retry_loop (query_device [186] 0) 10 None s0)
  = Raise (UnboundLocalError "last_error").
Proof.
  intros s0 l.
  assert (Hl : failing_rounds (query_device [186] 0) s0 l)
    by (vm_compute; repeat split).
  destruct (zero_retry_loop_outcome (query_device [186] 0) s0 l Hl) as [H10 _].
  rewrite H10 by (vm_compute; reflexivity).
  vm_compute. reflexivity.
Defined.

(** ** Counterexample *)

(** A payload of 65536 bytes: its length does not fit the u16 length field
    and struct.pack refuses it, so no frame is built. *)
Lemma encode_frame_rejects_65536_bytes :
  encode_frame (repeat 0 (Z.to_nat 65536))
  <> Some (spec_frame (repeat 0 (Z.to_nat 65536))).
Proof.
  assert (Hn : encode_frame (repeat 0 (Z.to_nat 65536)) = None)
    by (vm_compute; reflexivity).
  rewrite Hn. discriminate.
Qed.

(** * Further properties of the driver *)

Section Further.
Context {D : Type} `{Transport D} {F : Type} `{FloatOps F} `{AnsiCodec}.

Implicit Types s : FVA600 D F.

(** ** Status codes *)

Lemma enum_lookup_none (v : Z) (l : list (Z * string)) :
  enum_lookup v l = None <-> ~ In v (map fst l).
Proof.
  induction l as [|[k n] l IH]; simpl; [tauto|].
  destruct (Z.eqb_spec k v) as [->|Hne].
  - split; [discriminate | intro Hn; exfalso; apply Hn; left; reflexivity].
  - rewrite IH. split; [intros Hn [Hk|Hi]; [exact (Hne Hk) | exact (Hn Hi)] |].
    intros Hn Hi; apply Hn; right; exact Hi.
Qed.

Lemma Check_FT_ok_iff (status : Z) : Check_FT status = None <-> status = 0.
Proof.
  unfold Check_FT.
  destruct (enum_lookup status USBStatus_names) eqn:Hl.
  - destruct (Z.eqb_spec status 0); split; intro; congruence.
  - split; [discriminate|]. intro Hs; subst status; discriminate Hl.
Qed.

(** X1: the device error byte of a response header passes only when it is
    0 (OK); every other value, listed in DeviceErrorTypes or not, raises a
    DeviceError, the one exception [query_device] retries. *)
Theorem CheckDeviceError_fail_closed :
  forall value,
    (CheckDeviceError value = None <-> value = 0) /\
    (forall e, CheckDeviceError value = Some e -> is_DeviceError e = true).
Proof.
  intro v. unfold CheckDeviceError. split.
  - destruct (enum_lookup v DeviceErrorTypes) eqn:Hl.
    + destruct (Z.eqb_spec v 0); split; intro; congruence.
    + split; [discriminate|]. intro Hv; subst v; discriminate Hl.
  - intro e. destruct (enum_lookup v DeviceErrorTypes); [destruct (v =? 0)|];
      intro Heq; inversion Heq; reflexivity.
Qed.


(** ** The CRC of a request frame *)

Lemma crc_shift_zero (k : nat) : crc_shift k 0 = 0.
Proof. induction k as [|k IH]; [reflexivity|]. cbn [crc_shift]. exact IH. Qed.

Lemma crc_shift_shiftl (k : nat) (x : Z) : crc_shift k (Z.shiftl x (Z.of_nat k)) = x.
Proof.
  revert x; induction k as [|k IH]; intro x; cbn [crc_shift].
  - apply Z.shiftl_0_r.
  - rewrite Z.shiftl_spec_low by lia.
    rewrite Z.shiftr_shiftl_l by lia.
    replace (Z.of_nat (S k) - 1) with (Z.of_nat k) by lia.
    apply IH.
Qed.

Lemma lxor_low_byte (c : Z) : Z.lxor c (Z.land c 255) = Z.shiftl (Z.shiftr c 8) 8.
Proof.
  apply Z.bits_inj'; intros n Hn.
  rewrite Z.lxor_spec, Z.land_spec. change 255 with (Z.ones 8).
  destruct (Z.lt_ge_cases n 8) as [Hlt|Hge].
  - rewrite Z.ones_spec_low, Z.shiftl_spec_low by lia.
    destruct (Z.testbit c n); reflexivity.
  - rewrite Z.ones_spec_high, Z.shiftl_spec_high, Z.shiftr_spec by lia.
    replace (n - 8 + 8) with n by lia.
    destruct (Z.testbit c n); reflexivity.
Qed.

(** Appending the CRC-16/MODBUS of a message, low byte first, gives a
    message whose CRC is 0. *)
Lemma crc16_residue (data : list Z) : crc16 (data ++ le16 (crc16 data)) = 0.
Proof.
  unfold crc16 at 1. rewrite fold_left_app. fold (crc16 data).
  pose proof (crc16_in16 data) as Hc. unfold in16 in Hc.
  change (2 ^ 16) with 65536 in Hc.
  set (c := crc16 data) in *.
  unfold le16. cbn [fold_left].
  unfold crc_byte at 2.
  rewrite <- Z.land_assoc. change (Z.land 255 255) with 255.
  rewrite lxor_low_byte.
  change (Z.shiftl (Z.shiftr c 8) 8) with (Z.shiftl (Z.shiftr c 8) (Z.of_nat 8)).
  rewrite crc_shift_shiftl.
  rewrite (land255_small (Z.shiftr c 8)) by (apply shiftr8_small; lia).
  unfold crc_byte.
  rewrite (land255_small (Z.shiftr c 8)) by (apply shiftr8_small; lia).
  rewrite Z.lxor_nilpotent. apply crc_shift_zero.
Qed.

Lemma encode_frame_spec (command : list Z) :
  Z.of_nat (length command) <= 65535 -> encode_frame command = Some (spec_frame command).
Proof.
  intro Hlen. unfold encode_frame, spec_frame.
  rewrite pack_H_le16 by lia.
  rewrite pack_s_exact, pack_s_exact.
  pose proof (crc16_in16 (le16 (Z.of_nat (length command)) ++ command)) as Hc.
  unfold in16 in Hc; change (2 ^ 16) with 65536 in Hc.
  rewrite pack_H_le16 by lia.
  rewrite <- app_assoc; reflexivity.
Qed.

Lemma encode_frame_some (command frame : list Z) :
  encode_frame command = Some frame -> frame = spec_frame command.
Proof.
  intro He.
  destruct (Z_le_gt_dec (Z.of_nat (length command)) 65535) as [Hle|Hgt].
  - rewrite encode_frame_spec in He by exact Hle. inversion He; reflexivity.
  - exfalso. unfold encode_frame, pack_H in He.
    replace ((0 <=? Z.of_nat (length command)) && (Z.of_nat (length command) <=? 65535))
      with false in He; [discriminate|].
    symmetry; apply andb_false_iff; right; apply Z.leb_gt; lia.
Qed.

(** X3: every request frame [query_device] builds passes the receiver's
    CRC check: the CRC-16/MODBUS of the whole frame, its CRC field included,
    is 0; the frame is 4 bytes longer than the command. *)
Theorem encode_frame_crc_residue :
  forall command frame,
    encode_frame command = Some frame ->
    crc16 frame = 0 /\ length frame = (length command + 4)%nat.
Proof.
  intros command frame He.
  rewrite (encode_frame_some command frame He). unfold spec_frame.
  split.
  - rewrite app_assoc. apply crc16_residue.
  - rewrite !length_app. unfold le16. simpl. lia.
Qed.

(** ** Traffic of a query *)

Lemma writes_app (a b : list event) : writes (a ++ b) = writes a ++ writes b.
Proof.
  induction a as [|ev a IH]; [reflexivity|].
  destruct ev; simpl; rewrite IH; reflexivity.
Qed.

Section IoBound.
Variable P : list Z -> Prop.

Lemma io_weaken {A} k k' (m : @M D F A) :
  (k <= k')%nat -> io_bound P k m -> io_bound P k' m.
Proof.
  intros Hk Hm s. destruct (Hm s) as [a [Ht [Hp [Hl Hc]]]].
  exists a; repeat split; auto; lia.
Qed.

Lemma io_ret {A} (x : A) k : io_bound (D := D) (F := F) P k (ret x).
Proof. intro s; exists []; simpl; repeat split; [rewrite app_nil_r; reflexivity|constructor|lia|tauto]. Qed.

Lemma io_raise {A} e k : io_bound (D := D) (F := F) (A := A) P k (raise e).
Proof. intro s; exists []; simpl; repeat split; [rewrite app_nil_r; reflexivity|constructor|lia|tauto]. Qed.

Lemma io_get k : io_bound (D := D) (F := F) P k get.
Proof. intro s; exists []; simpl; repeat split; [rewrite app_nil_r; reflexivity|constructor|lia|tauto]. Qed.

Lemma io_set_handle (d : D) k : io_bound (F := F) P k (set_handle d).
Proof. intro s; exists []; simpl; repeat split; [rewrite app_nil_r; reflexivity|constructor|lia|tauto]. Qed.

Lemma io_raise_opt o k : io_bound (D := D) (F := F) P k (raise_opt o).
Proof. destruct o; [apply io_raise | apply io_ret]. Qed.

Lemma io_log_purge mask k : io_bound (D := D) (F := F) P k (log (EvPurge mask)).
Proof.
  intro s; exists [EvPurge mask]; simpl; repeat split; [constructor|lia|].
  intros [Hin|Hin]; [discriminate|exact Hin].
Qed.

Lemma io_log_read n k : io_bound (D := D) (F := F) P k (log (EvRead n)).
Proof.
  intro s; exists [EvRead n]; simpl; repeat split; [constructor|lia|].
  intros [Hin|Hin]; [discriminate|exact Hin].
Qed.

Lemma io_log_write b : P b -> io_bound (D := D) (F := F) P 1 (log (EvWrite b)).
Proof.
  intros Hb s; exists [EvWrite b]; simpl; split; [reflexivity|].
  split; [constructor; [exact Hb | constructor]|]. split; [lia|].
  intros [Hin|Hin]; [discriminate|exact Hin].
Qed.

Lemma io_bind {A B} k1 k2 k (m : @M D F A) (f : A -> @M D F B) :
  io_bound P k1 m -> (forall a, io_bound P k2 (f a)) -> (k1 + k2 <= k)%nat ->
  io_bound P k (bind m f).
Proof.
  intros Hm Hf Hk s. unfold bind.
  destruct (Hm s) as [a1 [Ht1 [Hp1 [Hl1 Hc1]]]].
  destruct (m s) as [[x|e|] s1]; simpl in Ht1.
  - destruct (Hf x s1) as [a2 [Ht2 [Hp2 [Hl2 Hc2]]]].
    exists (a1 ++ a2). rewrite Ht2, Ht1, app_assoc. repeat split.
    + rewrite writes_app. apply Forall_app; split; assumption.
    + rewrite writes_app, length_app. lia.
    + rewrite in_app_iff. tauto.
  - exists a1; repeat split; auto; lia.
  - exists a1; repeat split; auto; lia.
Qed.

Lemma io_try {A} k (m : @M D F A) : io_bound P k m -> io_bound P k (try_ m).
Proof.
  intros Hm s. unfold try_. destruct (Hm s) as [a Ha].
  destruct (m s) as [[x|e|] s1]; simpl in *; exists a; exact Ha.
Qed.

Lemma io_USBPurge mask k : io_bound (D := D) (F := F) P k (USBPurge mask).
Proof.
  unfold USBPurge. apply (io_bind 0 k); [apply io_log_purge| |lia]. intros _.
  apply (io_bind 0 k); [apply io_get| |lia]. intro s.
  destruct (ft_purge (HANDLE s) mask) as [st d].
  apply (io_bind 0 k); [apply io_set_handle| |lia]. intros _. apply io_raise_opt.
Qed.

Lemma io_USBRead n k : io_bound (D := D) (F := F) P k (USBRead n).
Proof.
  unfold USBRead. apply (io_bind 0 k); [apply io_log_read| |lia]. intros _.
  apply (io_bind 0 k); [apply io_get| |lia]. intro s.
  destruct (ft_read (HANDLE s) n) as [[st bs] d].
  apply (io_bind 0 k); [apply io_set_handle| |lia]. intros _.
  apply (io_bind 0 k); [apply io_raise_opt| |lia]. intros _. apply io_ret.
Qed.

Lemma io_USBWrite b : P b -> io_bound (D := D) (F := F) P 1 (USBWrite b).
Proof.
  intro Hb. unfold USBWrite. apply (io_bind 1 0); [apply io_log_write, Hb| |lia]. intros _.
  apply (io_bind 0 0); [apply io_get| |lia]. intro s.
  destruct (ft_write (HANDLE s) b) as [[st n] d].
  apply (io_bind 0 0); [apply io_set_handle| |lia]. intros _.
  apply (io_bind 0 0); [apply io_raise_opt| |lia]. intros _. apply io_ret.
Qed.

Lemma io_query_attempt frame :
  P frame -> io_bound (D := D) (F := F) P 1 (query_attempt frame).
Proof.
  intro Hf. unfold query_attempt.
  apply (io_bind 0 1); [apply io_USBPurge| |lia]. intros _.
  apply (io_bind 1 0); [apply io_USBWrite, Hf| |lia]. intro w.
  destruct (negb _); [apply io_raise|].
  apply (io_bind 0 0); [apply io_USBRead| |lia]. intro data.
  destruct (negb _); [apply io_raise|].
  apply (io_bind 0 0); [apply io_raise_opt| |lia]. intros _. apply io_ret.
Qed.

Lemma io_query_loop frame n last :
  P frame -> io_bound (D := D) (F := F) P n (query_loop frame n last).
Proof.
  intro Hf. revert last; induction n as [|n IH]; intro last; cbn [query_loop].
  - destruct last; apply io_raise.
  - apply (io_bind 1 n); [apply io_try, io_query_attempt, Hf| |lia].
    intros [x|err]; [apply io_ret|].
    destruct (is_DeviceError err); [apply IH | apply io_raise].
Qed.

End IoBound.

Lemma io_query_device command retry :
  io_bound (D := D) (F := F) (fun b => encode_frame command = Some b) (Z.to_nat retry)
    (query_device command retry).
Proof.
  unfold query_device.
  apply (io_bind _ 0 (Z.to_nat retry)); [apply io_get| |lia]. intro s.
  destruct (is_closed s); [apply io_raise|].
  destruct (encode_frame command) as [frame|] eqn:He; [|apply io_raise].
  apply (io_bind _ (Z.to_nat retry) 0); [apply io_query_loop; reflexivity| |lia]. intro n.
  apply (io_bind _ 0 0); [apply io_USBRead| |lia]. intro data.
  destruct (negb _); [apply io_raise|].
  apply (io_bind _ 0 0); [apply io_USBPurge| |lia]. intros _. apply io_ret.
Qed.

(** X4: whatever the session, [query_device] only appends to the trace;
    every buffer it writes is the request frame of its command (the same
    frame on every retry), it writes at most [retry] times (never for
    [retry <= 0]) and it never closes the handle. *)
Theorem query_device_writes_only_frame :
  forall command retry s,
    exists added,
      trace (snd (query_device command retry s)) = trace s ++ added /\
      Forall (fun b => encode_frame command = Some b) (writes added) /\
      (length (writes added) <= Z.to_nat retry)%nat /\
      ~ In EvClose added.
Proof. intros command retry s. exact (io_query_device command retry s). Qed.

End Further.

Section Traffic.
Context {D : Type} `{Transport D} {F : Type} `{FloatOps F} `{AnsiCodec}.

Implicit Types s : FVA600 D F.

(** Running a method whose first step returned. *)
Ltac ret_inv Hq :=
  match type of Hq with
  | bind ?m _ ?s = (Ret _, _) =>
      let x := fresh "x" in let s' := fresh "s" in let E := fresh "E" in
      unfold bind at 1 in Hq; destruct (m s) as [[x|? |] s'] eqn:E;
      [cbv beta in Hq | discriminate Hq | discriminate Hq]
  end.

Ltac if_inv Hq :=
  match type of Hq with
  | (if ?b then _ else _) _ = (Ret _, _) => destruct b; [discriminate Hq|]
  end.

Lemma bind_ret_now {A B} (m : @M D F A) (f : A -> @M D F B) s a s1 :
  m s = (Ret a, s1) -> bind m f s = f a s1.
Proof. intro Hm; unfold bind; rewrite Hm; reflexivity. Qed.

Lemma bind_raise_now {A B} (m : @M D F A) (f : A -> @M D F B) s e s1 :
  m s = (Raise e, s1) -> bind m f s = (Raise e, s1).
Proof. intro Hm; unfold bind; rewrite Hm; reflexivity. Qed.

(** ** Errors that are not retried *)

Lemma Z_to_nat_pos (r : Z) : 1 <= r -> Z.to_nat r = S (Z.to_nat (r - 1)).
Proof. intro Hr. rewrite <- Z2Nat.inj_succ by lia. f_equal. lia. Qed.

Lemma query_device_unfold command frame retry s :
  is_closed s = false -> encode_frame command = Some frame ->
  query_device command retry s =
    bind (query_loop frame (Z.to_nat retry) None) (fun length =>
      bind (USBRead length) (fun data =>
        if negb (Z.of_nat (List.length data) =? length) then raise timeout_error
        else bind (USBPurge 3) (fun _ => ret (string_buffer length data)))) s.
Proof.
  intros Hc He. unfold query_device. unfold bind at 1, get. rewrite Hc, He. reflexivity.
Qed.


(** ** Shape of a successful query *)

Lemma Forall_firstn_l {A} (P : A -> Prop) n (l : list A) :
  Forall P l -> Forall P (firstn n l).
Proof.
  revert l; induction n as [|n IH]; intros [|a l] Hl; simpl; auto.
  inversion Hl; subst; constructor; auto.
Qed.

Lemma string_buffer_bytes n bs : Forall (fun b => 0 <= b < 256) (string_buffer n bs).
Proof.
  unfold string_buffer. apply Forall_firstn_l. apply Forall_app; split.
  - apply Forall_forall; intros x Hx. apply in_map_iff in Hx.
    destruct Hx as [b [Hb _]]; subst x.
    change 255 with (Z.ones 8). rewrite Z.land_ones by lia.
    apply Z.mod_pos_bound; lia.
  - apply Forall_forall; intros x Hx. apply repeat_spec in Hx. lia.
Qed.

Lemma string_buffer_length n bs : length (string_buffer n bs) = Z.to_nat n.
Proof.
  unfold string_buffer. rewrite length_firstn, length_app, repeat_length, length_map. lia.
Qed.

Lemma nth_byte (l : list Z) i :
  Forall (fun b => 0 <= b < 256) l -> 0 <= nth i l 0 < 256.
Proof.
  intro Hl. destruct (Nat.lt_ge_cases i (length l)) as [Hi|Hi].
  - rewrite Forall_forall in Hl. apply Hl, nth_In, Hi.
  - rewrite nth_overflow by exact Hi. lia.
Qed.

Lemma query_attempt_range frame s n s1 :
  query_attempt frame s = (Ret n, s1) -> 0 <= n <= 65535.
Proof.
  unfold query_attempt. intro Hq.
  ret_inv Hq. ret_inv Hq. if_inv Hq. ret_inv Hq. if_inv Hq. cbv zeta in Hq. ret_inv Hq.
  unfold ret in Hq.
  match type of Hq with
  | (Ret ?v, _) = (Ret n, _) => assert (Hn : n = v) by congruence
  end.
  rewrite Hn.
  match goal with
  | |- context [string_buffer 3 ?d] => pose proof (string_buffer_bytes 3 d) as Hb
  end.
  pose proof (nth_byte _ 1 Hb). pose proof (nth_byte _ 2 Hb). lia.
Qed.

Lemma query_loop_range frame k last s n s1 :
  query_loop frame k last s = (Ret n, s1) -> 0 <= n <= 65535.
Proof.
  revert last s; induction k as [|k IH]; intros last s Hq; cbn [query_loop] in Hq.
  - destruct last; discriminate Hq.
  - unfold bind at 1, try_ in Hq.
    destruct (query_attempt frame s) as [[m|e|] s2] eqn:Ha.
    + unfold ret in Hq. inversion Hq; subst. exact (query_attempt_range _ _ _ _ Ha).
    + destruct (is_DeviceError e); [exact (IH _ _ Hq) | discriminate Hq].
    + discriminate Hq.
Qed.

Lemma USBRead_trace n s : trace (snd (USBRead n s)) = trace s ++ [EvRead n].
Proof.
  destruct s as [cl h t dd]. unfold USBRead, bind, log, get, set_handle; simpl.
  destruct (ft_read h n) as [[st bs] d]; simpl.
  destruct (Check_FT st); reflexivity.
Qed.

Lemma USBPurge_trace mask s : trace (snd (USBPurge mask s)) = trace s ++ [EvPurge mask].
Proof.
  destruct s as [cl h t dd]. unfold USBPurge, bind, log, get, set_handle; simpl.
  destruct (ft_purge h mask) as [st d]; simpl.
  destruct (Check_FT st); reflexivity.
Qed.

Lemma query_device_returns :
  forall command retry s body s',
    query_device command retry s = (Ret body, s') ->
    exists n pre,
      0 <= n <= 65535 /\ length body = Z.to_nat n /\
      Forall (fun b => 0 <= b < 256) body /\
      trace s' = pre ++ [EvRead n; EvPurge 3].
Proof.
  intros command retry s body s' Hq.
  unfold query_device in Hq. unfold bind at 1, get in Hq. cbv beta iota in Hq.
  destruct (is_closed s); [discriminate Hq|].
  destruct (encode_frame command) as [frame|]; [|discriminate Hq].
  ret_inv Hq. ret_inv Hq. if_inv Hq. ret_inv Hq.
  unfold ret in Hq. inversion Hq; subst body s'.
  exists x, (trace s0).
  split; [exact (query_loop_range _ _ _ _ _ _ E)|].
  split; [apply string_buffer_length|].
  split; [apply string_buffer_bytes|].
  pose proof (USBPurge_trace 3 s1) as T2. rewrite E1 in T2. simpl in T2.
  pose proof (USBRead_trace x s0) as T1. rewrite E0 in T1. simpl in T1.
  rewrite T2, T1, <- app_assoc. reflexivity.
Qed.


End Traffic.

Section Lifecycle.
Context {D : Type} `{Transport D} {F : Type} `{FloatOps F} `{AnsiCodec}.

Implicit Types s : FVA600 D F.

(** ** Methods that leave [is_closed] alone *)

Lemma flag_ret {A} (a : A) : keeps_flag (D := D) (F := F) (ret a).
Proof. intro s; reflexivity. Qed.

Lemma flag_raise {A} e : keeps_flag (D := D) (F := F) (A := A) (raise e).
Proof. intro s; reflexivity. Qed.

Lemma flag_spin {A} : keeps_flag (D := D) (F := F) (A := A) spin.
Proof. intro s; reflexivity. Qed.

Lemma flag_get : keeps_flag (D := D) (F := F) get.
Proof. intro s; reflexivity. Qed.

Lemma flag_log ev : keeps_flag (D := D) (F := F) (log ev).
Proof. intro s; reflexivity. Qed.

Lemma flag_set_handle (d : D) : keeps_flag (F := F) (set_handle d).
Proof. intro s; reflexivity. Qed.

Lemma flag_raise_opt o : keeps_flag (D := D) (F := F) (raise_opt o).
Proof. destruct o; intro s; reflexivity. Qed.

Lemma flag_set_descriptor (d : DeviceDescriptor F) : keeps_flag (D := D) (set_descriptor d).
Proof. intro s; reflexivity. Qed.

Lemma flag_bind {A B} (m : @M D F A) (k : A -> @M D F B) :
  keeps_flag m -> (forall a, keeps_flag (k a)) -> keeps_flag (bind m k).
Proof.
  intros Hm Hk s; unfold bind.
  specialize (Hm s).
  destruct (m s) as [[a|e|] s']; simpl in *; [rewrite Hk| |]; auto.
Qed.

Lemma flag_try {A} (m : @M D F A) : keeps_flag m -> keeps_flag (try_ m).
Proof.
  intros Hm s; unfold try_.
  specialize (Hm s).
  destruct (m s) as [[a|e|] s']; simpl in *; auto.
Qed.

Create HintDb flag.
#[local] Hint Resolve flag_ret flag_raise flag_spin flag_get flag_log flag_set_handle
  flag_raise_opt flag_set_descriptor : flag.

Ltac flag_step :=
  match goal with
  | |- keeps_flag (bind _ _) => apply flag_bind; [ | intro ]
  | |- keeps_flag (try_ _) => apply flag_try
  | |- keeps_flag (match ?x with _ => _ end) => destruct x
  | |- keeps_flag (if ?b then _ else _) => destruct b
  | |- keeps_flag _ => solve [ eauto with flag ]
  end.

Ltac flag_auto := repeat flag_step.

Lemma flag_USBPurge m : keeps_flag (D := D) (F := F) (USBPurge m).
Proof. unfold USBPurge; flag_auto. Qed.

Lemma flag_USBWrite b : keeps_flag (D := D) (F := F) (USBWrite b).
Proof. unfold USBWrite; flag_auto. Qed.

Lemma flag_USBRead n : keeps_flag (D := D) (F := F) (USBRead n).
Proof. unfold USBRead; flag_auto. Qed.

Lemma flag_USBClose : keeps_flag (D := D) (F := F) USBClose.
Proof. unfold USBClose; flag_auto. Qed.

#[local] Hint Resolve flag_USBPurge flag_USBWrite flag_USBRead flag_USBClose : flag.

Lemma flag_query_attempt b : keeps_flag (D := D) (F := F) (query_attempt b).
Proof. unfold query_attempt; flag_auto. Qed.
#[local] Hint Resolve flag_query_attempt : flag.

Lemma flag_query_loop b n e : keeps_flag (D := D) (F := F) (query_loop b n e).
Proof. revert e; induction n; intro e; simpl; flag_auto. Qed.
#[local] Hint Resolve flag_query_loop : flag.

Lemma flag_query_device c r : keeps_flag (D := D) (F := F) (query_device c r).
Proof. unfold query_device; flag_auto. Qed.
#[local] Hint Resolve flag_query_device : flag.

Lemma flag_set_remote b : keeps_flag (D := D) (F := F) (set_remote b).
Proof. unfold set_remote; flag_auto. Qed.
#[local] Hint Resolve flag_set_remote : flag.

Lemma flag_read_list c i k : keeps_flag (D := D) (F := F) (read_list c i k).
Proof. revert i; induction k; intro i; simpl; flag_auto. Qed.
#[local] Hint Resolve flag_read_list : flag.

Lemma flag_populate : keeps_flag (D := D) (F := F) populate_device_descr.
Proof. unfold populate_device_descr, read_count_and_list, decode; flag_auto. Qed.
#[local] Hint Resolve flag_populate : flag.

Lemma io_set_remote_local :
  io_bound (D := D) (F := F) (fun b => encode_frame [112; 0] = Some b) 10 (set_remote false).
Proof.
  unfold set_remote. apply (io_bind _ 10 0); [apply io_query_device| |lia].
  intros _. apply io_ret.
Qed.

(** ** A close that fails *)

Lemma close_raises :
  forall s e s1,
    close s = (Raise e, s1) ->
    is_closed s = false /\ is_closed s1 = false /\
    ((set_remote false s = (Raise e, s1) /\
      exists added, trace s1 = trace s ++ added /\ ~ In EvClose added) \/
     (exists s2, set_remote false s = (Ret tt, s2) /\ USBClose s2 = (Raise e, s1))).
Proof.
  intros s e s1 Hcl.
  unfold close in Hcl. unfold bind at 1, get in Hcl. cbv beta iota in Hcl.
  destruct (is_closed s) eqn:Hc; [discriminate Hcl|].
  cbn [negb] in Hcl. split; [reflexivity|].
  unfold bind at 1 in Hcl.
  destruct (set_remote false s) as [[u|e'|] s2] eqn:Hsr; [| |discriminate Hcl].
  - destruct u. unfold bind in Hcl.
    destruct (USBClose s2) as [[u'|e''|] s3] eqn:Huc; [discriminate Hcl| |discriminate Hcl].
    inversion Hcl; subst e'' s3.
    pose proof (flag_set_remote false s) as F1. rewrite Hsr in F1. simpl in F1.
    pose proof (flag_USBClose s2) as F2. rewrite Huc in F2. simpl in F2.
    split; [congruence|]. right. exists s2. split; first [reflexivity | assumption].
  - inversion Hcl; subst e' s2.
    pose proof (flag_set_remote false s) as F1. rewrite Hsr in F1. simpl in F1.
    split; [congruence|]. left. split; [reflexivity|].
    destruct (io_set_remote_local s) as [added [Ht [_ [_ Hnc]]]].
    rewrite Hsr in Ht. exists added. split; [exact Ht | exact Hnc].
Qed.

(** X7: [close] marks the session closed only when both the set-local
    query and [FT_Close] succeed.  When it raises, the session was open and
    stays open: either the set-local query failed, and no [FT_Close] call was
    made at all, or [FT_Close] itself failed after it. *)
Theorem close_failure_leaves_open :
  forall s e s1,
    close s = (Raise e, s1) ->
    is_closed s = false /\ is_closed s1 = false /\
    ((set_remote false s = (Raise e, s1) /\
      exists added, trace s1 = trace s ++ added /\ ~ In EvClose added) \/
     (exists s2, set_remote false s = (Ret tt, s2) /\ USBClose s2 = (Raise e, s1))).
Proof. exact close_raises. Qed.

(** ** Attenuation setter *)


(** ** A closed session *)

Lemma query_device_on_closed c r s :
  is_closed s = true -> query_device c r s = (Raise closed_error, s).
Proof. intro Hc. unfold query_device, bind, get; simpl. rewrite Hc; reflexivity. Qed.

Lemma status_on_closed s : is_closed s = true -> status s = (Ret DISCONNECTED, s).
Proof. intro Hc. unfold status, bind, get; simpl. rewrite Hc; reflexivity. Qed.

Lemma current_state_on_closed s :
  is_closed s = true -> current_state s = (Raise closed_error, s).
Proof. intro Hc. unfold current_state. apply bind_raise_now, query_device_on_closed, Hc. Qed.

Lemma closed_run_op fuel (o : @op F) s :
  is_closed s = true ->
  run_op fuel o s = (Ret tt, s) \/ exists e, run_op fuel o s = (Raise e, s).
Proof.
  intro Hc. destruct o; cbn [run_op].
  - right. eexists. apply bind_raise_now, query_device_on_closed, Hc.
  - left. unfold close, bind, get; simpl. rewrite Hc. reflexivity.
  - left. rewrite (bind_ret_now _ _ _ _ _ (status_on_closed s Hc)). reflexivity.
  - right. eexists. apply bind_raise_now, current_state_on_closed, Hc.
  - right. eexists. unfold get_wavelength.
    apply bind_raise_now, bind_raise_now, current_state_on_closed, Hc.
  - right. unfold set_wavelength, bind at 1, get. cbv beta iota.
    destruct (flt_lt v _); [eexists; reflexivity|].
    destruct (flt_lt _ v); [eexists; reflexivity|].
    eexists. apply bind_raise_now, query_device_on_closed, Hc.
  - right. eexists. unfold get_attenuation.
    apply bind_raise_now, bind_raise_now, current_state_on_closed, Hc.
  - right. eexists. unfold set_attenuation.
    apply bind_raise_now, current_state_on_closed, Hc.
  - right. eexists. unfold set_remote.
    destruct remote; apply bind_raise_now, query_device_on_closed, Hc.
  - right. eexists. unfold populate_device_descr.
    apply bind_raise_now, bind_raise_now, query_device_on_closed, Hc.
  - right. unfold do_zero_device.
    rewrite (bind_ret_now _ _ _ _ _ (status_on_closed s Hc)).
    eexists; reflexivity.
Qed.


(** ** Lists read by [populate_device_descr] *)

Lemma read_list_length code i k s l s1 :
  read_list code i k s = (Ret l, s1) -> length l = k.
Proof.
  revert i s l s1; induction k as [|k IH]; intros i s l s1 Hr; cbn [read_list] in Hr.
  - unfold ret in Hr. inversion Hr. reflexivity.
  - unfold bind at 1 in Hr. destruct (query_device [code; i] 10 s) as [[r|e|] s2];
      [|discriminate Hr|discriminate Hr].
    cbv beta in Hr. destruct (length r <? 4)%nat; [discriminate Hr|].
    unfold bind at 1 in Hr. destruct (read_list code (i + 1) k s2) as [[rest|e|] s3] eqn:E;
      [|discriminate Hr|discriminate Hr].
    unfold ret in Hr. inversion Hr; subst. simpl. f_equal. exact (IH _ _ _ _ E).
Qed.

(** X10: a list read by [populate_device_descr] (the wavelengths, the
    attenuation steps) has exactly as many entries as the count byte the
    device answered to the count command, so at most 255. *)
Theorem read_count_and_list_length :
  forall count_code item_code s l s1,
    read_count_and_list count_code item_code s = (Ret l, s1) ->
    exists nb rest s2,
      query_device [count_code] 10 s = (Ret (nb :: rest), s2) /\
      0 <= nb < 256 /\ length l = Z.to_nat nb.
Proof.
  intros cc ic s l s1 Hr. unfold read_count_and_list in Hr.
  unfold bind at 1 in Hr.
  destruct (query_device [cc] 10 s) as [[r|e|] s2] eqn:Eq; [|discriminate Hr|discriminate Hr].
  destruct r as [|nb rest]; [discriminate Hr|].
  exists nb, rest, s2. split; [reflexivity|]. split.
  - destruct (query_device_returns _ _ _ _ _ Eq) as [n [pre [_ [_ [Hb _]]]]].
    inversion Hb; assumption.
  - exact (read_list_length _ _ _ _ _ _ Hr).
Qed.

End Lifecycle.

Section BringupProofs.
Context {D : Type} `{Transport D} `{USBSetup D} {F : Type} `{FloatOps F} `{AnsiCodec}.

Implicit Types s : FVA600 D F.

(** ** The identity string *)

Lemma split_comma_nonempty (l : list Z) : split_comma l <> [].
Proof.
  destruct l as [|c l]; simpl; [discriminate|].
  destruct (split_comma l) as [|p ps]; [discriminate|].
  destruct (c =? 44); discriminate.
Qed.

Lemma split_comma_field (x y : list Z) :
  ~ In 44 x ->
  exists p ps, split_comma y = p :: ps /\ split_comma (x ++ y) = (x ++ p) :: ps.
Proof.
  intro Hx. induction x as [|c x IH].
  - destruct (split_comma y) as [|p ps] eqn:E; [exfalso; exact (split_comma_nonempty y E)|].
    exists p, ps. split; [reflexivity | simpl; exact E].
  - destruct IH as [p [ps [Ey Exy]]]; [intro Hin; apply Hx; right; exact Hin|].
    exists p, ps. split; [exact Ey|].
    simpl. rewrite Exy.
    replace (c =? 44) with false; [reflexivity|].
    symmetry. apply Z.eqb_neq. intro Hc; subst c. apply Hx. left; reflexivity.
Qed.

Lemma split_comma_sep (y : list Z) : split_comma (44 :: y) = [] :: split_comma y.
Proof.
  simpl. destruct (split_comma y) as [|p ps] eqn:E; [exfalso; exact (split_comma_nonempty y E)|].
  reflexivity.
Qed.

Lemma split_identity (manuf mdl ser rest : list Z) :
  ~ In 44 manuf -> ~ In 44 mdl -> ~ In 44 ser ->
  (rest = [] \/ exists r, rest = 44 :: r) ->
  exists tl, split_comma (manuf ++ 44 :: mdl ++ 44 :: ser ++ rest) = manuf :: mdl :: ser :: tl.
Proof.
  intros Hm Hd Hs Hr.
  destruct (split_comma_field manuf (44 :: mdl ++ 44 :: ser ++ rest) Hm) as [p1 [ps1 [E1 F1]]].
  rewrite split_comma_sep in E1. inversion E1; subst p1 ps1.
  destruct (split_comma_field mdl (44 :: ser ++ rest) Hd) as [p2 [ps2 [E2 F2]]].
  rewrite split_comma_sep in E2. inversion E2; subst p2 ps2.
  destruct (split_comma_field ser rest Hs) as [p3 [ps3 [E3 F3]]].
  assert (Hp3 : p3 = []).
  { destruct Hr as [->|[r ->]].
    - simpl in E3. inversion E3; reflexivity.
    - rewrite split_comma_sep in E3. inversion E3; reflexivity. }
  subst p3. exists ps3.
  rewrite F1, F2, F3, !app_nil_r. reflexivity.
Qed.

Ltac ret_inv Hq :=
  match type of Hq with
  | bind ?m _ ?s = (Ret _, _) =>
      let x := fresh "x" in let s' := fresh "s" in let E := fresh "E" in
      unfold bind at 1 in Hq; destruct (m s) as [[x|? |] s'] eqn:E;
      [cbv beta in Hq | discriminate Hq | discriminate Hq]
  end.

Ltac run_inv Hq :=
  repeat first
    [ ret_inv Hq
    | match type of Hq with
      | (if ?b then _ else _) _ = (Ret _, _) => destruct b; [discriminate Hq|]
      | (match ?p with (_, _) => _ end) _ = (Ret _, _) => destruct p
      end ].

(** X11: the manufacturer, model and serial of the device descriptor are
    the first three comma-separated fields of the identity string (the
    answer to command 0 up to its first NUL, decoded), each stripped of
    surrounding spaces; further fields are ignored. *)
Theorem populate_identity_fields :
  forall s r0 s1 manuf mdl ser rest d s',
    query_device [0] 10 s = (Ret r0, s1) ->
    ansi_decode (fst (partition0 r0)) = Some (manuf ++ 44 :: mdl ++ 44 :: ser ++ rest) ->
    ~ In 44 manuf -> ~ In 44 mdl -> ~ In 44 ser ->
    (rest = [] \/ exists r, rest = 44 :: r) ->
    populate_device_descr s = (Ret d, s') ->
    manufacturer d = strip_space manuf /\ model d = strip_space mdl /\
    serial d = strip_space ser.
Proof.
  intros s r0 s1 manuf mdl ser rest d s' Hq Hdec Hm Hd Hs Hr Hp.
  unfold populate_device_descr in Hp.
  rewrite (bind_ret_now _ _ _ _ _ Hq) in Hp. cbv beta in Hp.
  unfold bind at 1, decode in Hp. rewrite Hdec in Hp. cbv beta iota delta [ret] in Hp.
  destruct (split_identity manuf mdl ser rest Hm Hd Hs Hr) as [tl Hsp].
  rewrite Hsp in Hp.
  run_inv Hp.
  unfold ret in Hp. inversion Hp; subst d. simpl. auto.
Qed.

(** ** The two reads of the descriptor in the constructor *)

Lemma flag_close_raise s e s1 : close s = (Raise e, s1) -> is_closed s1 = false.
Proof. intro Hc. destruct (close_raises s e s1 Hc) as [_ [Hs1 _]]. exact Hs1. Qed.

Lemma close_ret_closed s s1 : close s = (Ret tt, s1) -> is_closed s1 = true.
Proof.
  intro Hcl. unfold close in Hcl. unfold bind at 1, get in Hcl. cbv beta iota in Hcl.
  destruct (is_closed s) eqn:Hc.
  - unfold ret in Hcl. inversion Hcl; subst. exact Hc.
  - cbn [negb] in Hcl. unfold bind at 1 in Hcl.
    destruct (set_remote false s) as [[u|e|] s2]; [|discriminate Hcl|discriminate Hcl].
    unfold bind in Hcl. destruct (USBClose s2) as [[u'|e|] s3]; [|discriminate Hcl|discriminate Hcl].
    unfold set_closed in Hcl. inversion Hcl. reflexivity.
Qed.

(** X12: the constructor keeps the first descriptor read that succeeds,
    out of two tries; when both fail it closes the session and raises
    "Device properties read : failure", the session then closed.  If that
    close raises instead (the set-local query or [FT_Close] failed), its
    exception replaces the SystemError and the session stays open. *)
Theorem read_descriptor_twice_outcome :
  forall s,
    (forall d s1, populate_device_descr s = (Ret d, s1) ->
       read_descriptor_twice s = (Ret tt, mkFVA600 (is_closed s1) (HANDLE s1) (trace s1) d)) /\
    (forall e1 s1 d s2,
       populate_device_descr s = (Raise e1, s1) ->
       populate_device_descr s1 = (Ret d, s2) ->
       read_descriptor_twice s = (Ret tt, mkFVA600 (is_closed s2) (HANDLE s2) (trace s2) d)) /\
    (forall e1 s1 e2 s2,
       populate_device_descr s = (Raise e1, s1) ->
       populate_device_descr s1 = (Raise e2, s2) ->
       (forall s3, close s2 = (Ret tt, s3) ->
          read_descriptor_twice s =
            (Raise (SystemError "Device properties read : failure"), s3) /\
          is_closed s3 = true) /\
       (forall e s3, close s2 = (Raise e, s3) ->
          read_descriptor_twice s = (Raise e, s3) /\ is_closed s3 = false)).
Proof.
  intro s. unfold read_descriptor_twice.
  split; [|split].
  - intros d s1 Hp. unfold bind at 1, try_. rewrite Hp. reflexivity.
  - intros e1 s1 d s2 Hp1 Hp2. unfold bind at 1, try_. rewrite Hp1. cbv beta iota.
    unfold bind at 1, try_. rewrite Hp2. reflexivity.
  - intros e1 s1 e2 s2 Hp1 Hp2.
    assert (Hr : read_descriptor_twice s =
                 bind close (fun _ => raise (SystemError "Device properties read : failure")) s2).
    { unfold read_descriptor_twice. unfold bind at 1, try_. rewrite Hp1. cbv beta iota.
      unfold bind at 1, try_. rewrite Hp2. reflexivity. }
    unfold read_descriptor_twice in Hr. rewrite Hr.
    split.
    + intros s3 Hc. unfold bind. rewrite Hc. split; [reflexivity|].
      exact (close_ret_closed s2 s3 Hc).
    + intros e s3 Hc. unfold bind. rewrite Hc. split; [reflexivity|].
      exact (flag_close_raise s2 e s3 Hc).
Qed.

(** ** The constructor *)

Lemma flag_usb_call (f : D -> Z * D) : keeps_flag (F := F) (usb_call f).
Proof.
  unfold usb_call. apply flag_bind; [apply flag_get|]. intro s.
  destruct (f (HANDLE s)) as [st d].
  apply flag_bind; [apply flag_set_handle|]. intros _. apply flag_raise_opt.
Qed.

Lemma usb_call_ret_flag (f : D -> Z * D) s s1 :
  usb_call f s = (Ret tt, s1) -> is_closed s1 = is_closed s.
Proof. intro Hu. pose proof (flag_usb_call f s) as Hf. rewrite Hu in Hf. exact Hf. Qed.

Lemma bind_ret_split {A B} (m : @M D F A) (f : A -> @M D F B) s b s' :
  bind m f s = (Ret b, s') -> exists a s1, m s = (Ret a, s1) /\ f a s1 = (Ret b, s').
Proof.
  unfold bind. destruct (m s) as [[a|e|] s1]; intro Hb; [|discriminate Hb|discriminate Hb].
  exists a, s1. split; [reflexivity | exact Hb].
Qed.

(** X13: a constructor that completes leaves the session open, with the
    descriptor given by a complete [populate_device_descr] run (whose handle
    and trace the session keeps). *)
Theorem init_session_open :
  forall s s',
    init_session s = (Ret tt, s') ->
    is_closed s' = false /\
    exists s1 s2, populate_device_descr s1 = (Ret (device_descriptor s'), s2) /\
      HANDLE s' = HANDLE s2 /\ trace s' = trace s2 /\ is_closed s2 = false.
Proof.
  intros s s' Hi. unfold init_session in Hi.
  destruct (bind_ret_split _ _ _ _ _ Hi) as [u0 [s0 [E0 Hi0]]].
  unfold set_closed in E0. inversion E0; subst u0 s0.
  destruct (bind_ret_split _ _ _ _ _ Hi0) as [u1 [s1 [E1 Hi1]]].
  destruct (bind_ret_split _ _ _ _ _ Hi1) as [u2 [s2 [E2 Hi2]]].
  destruct (bind_ret_split _ _ _ _ _ Hi2) as [u3 [s3 [E3 Hi3]]].
  destruct (bind_ret_split _ _ _ _ _ Hi3) as [u4 [s4 [E4 Hi4]]].
  destruct (bind_ret_split _ _ _ _ _ Hi4) as [u5 [s5 [E5 Hi5]]].
  destruct (bind_ret_split _ _ _ _ _ Hi5) as [u6 [s6 [E6 Hi6]]].
  destruct u1, u2, u3, u4, u5.
  pose proof (usb_call_ret_flag _ _ _ E1) as G1. pose proof (usb_call_ret_flag _ _ _ E2) as G2.
  pose proof (usb_call_ret_flag _ _ _ E3) as G3. pose proof (usb_call_ret_flag _ _ _ E4) as G4.
  pose proof (usb_call_ret_flag _ _ _ E5) as G5.
  pose proof (flag_set_remote true s5) as G6. rewrite E6 in G6. simpl in G1, G6.
  assert (Hs6 : is_closed s6 = false) by congruence.
  clear - Hi6 Hs6. rename Hi6 into Hi.
  unfold read_descriptor_twice in Hi. unfold bind at 1, try_ in Hi.
  destruct (populate_device_descr s6) as [[d|e1|] s7] eqn:P1; [| |discriminate Hi].
  - unfold set_descriptor in Hi. inversion Hi; subst s'. simpl.
    pose proof (flag_populate s6) as G. rewrite P1 in G. simpl in G.
    split; [congruence|]. exists s6, s7. repeat split; [exact P1|congruence].
  - cbv beta iota in Hi. unfold bind at 1, try_ in Hi.
    destruct (populate_device_descr s7) as [[d|e2|] s8] eqn:P2; [| |discriminate Hi].
    + unfold set_descriptor in Hi. inversion Hi; subst s'. simpl.
      pose proof (flag_populate s6) as G. rewrite P1 in G. simpl in G.
      pose proof (flag_populate s7) as G'. rewrite P2 in G'. simpl in G'.
      split; [congruence|]. exists s7, s8. repeat split; [exact P2|congruence].
    + cbv beta iota in Hi. unfold bind in Hi.
      destruct (close s8) as [[u|e|] s9]; discriminate Hi.
Qed.

End BringupProofs.

(** ** Device enumeration *)

Section EnumProofs.
Context `{AnsiCodec} `{Enumerator}.

Lemma scan_devices_spec (i : Z) (k : nat) :
  (forall x, In x (scan_devices i k) <-> i <= x < i + Z.of_nat k /\ id_matches x = true) /\
  StronglySorted Z.lt (scan_devices i k).
Proof.
  revert i; induction k as [|k IH]; intro i; cbn [scan_devices].
  - split; [intro x; simpl; split; [intros []|lia] | constructor].
  - destruct (IH (i + 1)) as [Hin Hs].
    destruct (id_matches i) eqn:Hm; simpl.
    + split.
      * intro x. rewrite Hin. split.
        -- intros [Hx|[Hx Hx']]; [subst x; split; [lia|exact Hm] | split; [lia|exact Hx']].
        -- intros [Hx Hx']. destruct (Z.eq_dec x i) as [->|Hne]; [left; reflexivity|].
           right. split; [lia|exact Hx'].
      * constructor; [exact Hs|].
        apply Forall_forall. intros x Hx. apply Hin in Hx. lia.
    + split; [|exact Hs].
      intro x. rewrite Hin. split.
      * intros [Hx Hx']. split; [lia|exact Hx'].
      * intros [Hx Hx']. destruct (Z.eq_dec x i) as [->|Hne]; [congruence|].
        split; [lia|exact Hx'].
Qed.


End EnumProofs.

(** ** Busy-wait loops, against the scripted fake device *)

Section WaitProofs.
Context {F : Type} `{FloatOps F} `{AnsiCodec}.

Implicit Types s : FVA600 FakeDev F.

Lemma query_ok_fake s command frame retry body rest rx0 :
  is_closed s = false ->
  encode_frame command = Some frame ->
  HANDLE s = mkFake (ok_reply body :: rest) rx0 ->
  1 <= retry ->
  Forall (fun b => 0 <= b < 256) body ->
  Z.of_nat (length body) <= 65535 ->
  query_device command retry s =
    (Ret body, mkFVA600 false (mkFake rest [])
       (trace s ++ attempt_events frame ++ [EvRead (Z.of_nat (length body)); EvPurge 3])
       (device_descriptor s)).
Proof.
  intros Hc He Hh Hr Hb HL.
  destruct (query_loop_script [] (Z.to_nat retry) s frame None body rest rx0
              (Forall_nil _) HL Hh) as [L1 _].
  rewrite (query_device_unfold command frame retry s Hc He).
  unfold bind at 1.
  rewrite L1 by (rewrite (Z_to_nat_pos retry Hr); simpl; lia).
  rewrite Hc.
  unfold bind at 1. rewrite (read_body _ body rest) by reflexivity.
  cbn [is_closed HANDLE trace device_descriptor].
  rewrite Z.eqb_refl. simpl negb. cbv iota.
  unfold bind, USBPurge, log, get, set_handle, raise_opt, ret; cbn -[Z.of_nat].
  rewrite string_buffer_exact by exact Hb.
  simpl concat. rewrite ?app_nil_r, <- ?app_assoc. reflexivity.
Qed.

Lemma status_fake s a b c rest rx0 :
  is_closed s = false ->
  HANDLE s = mkFake (ok_reply [a; b; c] :: rest) rx0 ->
  0 <= a < 256 -> 0 <= b < 256 -> 0 <= c < 256 ->
  status s = (Ret (decode_status a b c),
              mkFVA600 false (mkFake rest []) (trace s ++ status_events) (device_descriptor s)).
Proof.
  intros Hc Hh Ha Hb Hc3.
  unfold status. unfold bind at 1, get. cbv beta iota. rewrite Hc.
  rewrite (bind_ret_now _ _ _ _ _
             (query_ok_fake s [188] status_frame 10 [a; b; c] rest rx0 Hc eq_refl Hh
                ltac:(lia) ltac:(repeat constructor; lia) ltac:(simpl; lia))).
  unfold status_events. rewrite ?app_assoc. reflexivity.
Qed.

Lemma status_eqb_true (x y : DeviceStatus) : status_eqb x y = true <-> x = y.
Proof. destruct x, y; simpl; split; intro Hx; congruence. Qed.

(** A status reply: three flag bytes decoding to [target]. *)
Definition flags_decode_to (target : DeviceStatus) (r : list Z) : Prop :=
  exists f1 f2 f3, r = [f1; f2; f3] /\
    0 <= f1 < 256 /\ 0 <= f2 < 256 /\ 0 <= f3 < 256 /\ decode_status f1 f2 f3 = target.

(** X15: the busy-wait [while self.status == target: continue] (after the
    wavelength and attenuation setters with SETTLING, after the zero
    calibration with CORRECTING) reads the status once per round and
    returns right after the first status that differs from [target]: with
    [k] replies equal to [target] before it, it makes exactly k+1 status
    queries and nothing else; while the status stays [target] it never
    returns. *)
Theorem wait_while_fake :
  forall target replies a b c rest rx0 fuel s,
    is_closed s = false ->
    Forall (flags_decode_to target) replies ->
    0 <= a < 256 -> 0 <= b < 256 -> 0 <= c < 256 ->
    decode_status a b c <> target ->
    HANDLE s = mkFake (map ok_reply replies ++ ok_reply [a; b; c] :: rest) rx0 ->
    ((length replies < fuel)%nat ->
       wait_while target fuel s =
         (Ret tt, mkFVA600 false (mkFake rest [])
                    (trace s ++ concat (repeat status_events (S (length replies))))
                    (device_descriptor s))) /\
    ((fuel <= length replies)%nat -> fst (wait_while target fuel s) = Spin).
Proof.
  intros target replies a b c rest rx0 fuel s Hc Hr Ha Hb Hc3 Hne.
  revert fuel s rx0 Hc.
  induction Hr as [|r replies Hr1 Hrs IH]; intros fuel s rx0 Hc Hh.
  - split.
    + intro Hf. destruct fuel as [|f]; [simpl in Hf; lia|].
      cbn [wait_while].
      rewrite (bind_ret_now _ _ _ _ _ (status_fake s a b c rest rx0 Hc Hh Ha Hb Hc3)).
      replace (status_eqb (decode_status a b c) target) with false.
      * simpl. rewrite ?app_nil_r. reflexivity.
      * symmetry. destruct (status_eqb _ _) eqn:Eq; [|reflexivity].
        exfalso. apply Hne, status_eqb_true, Eq.
    + intro Hf. destruct fuel; [reflexivity | simpl in Hf; lia].
  - destruct Hr1 as [f1 [f2 [f3 [-> [H1 [H2 [H3 Hd]]]]]]].
    set (s1 := mkFVA600 false (mkFake (map ok_reply replies ++ ok_reply [a; b; c] :: rest) [])
                 (trace s ++ status_events) (device_descriptor s)).
    destruct fuel as [|f].
    + split; [intro Hf; simpl in Hf; lia | intros _; reflexivity].
    + destruct (IH f s1 [] eq_refl eq_refl) as [IH1 IH2].
      cbn [wait_while].
      rewrite (bind_ret_now _ _ _ _ _ (status_fake s f1 f2 f3 _ rx0 Hc Hh H1 H2 H3)).
      rewrite Hd. replace (status_eqb target target) with true
        by (symmetry; apply status_eqb_true; reflexivity).
      fold s1. split.
      * intro Hf. etransitivity; [exact (IH1 ltac:(simpl in Hf; lia))|].
        subst s1; simpl. rewrite <- app_assoc. reflexivity.
      * intro Hf. exact (IH2 ltac:(simpl in Hf; lia)).
Qed.

End WaitProofs.

(** ** Witnesses of the further properties *)

Lemma encode_frame_crc_residue_witness :
  encode_frame [188] = Some status_frame /\
  crc16 status_frame = 0 /\ length status_frame = (length [188] + 4)%nat.
Proof.
  assert (He : encode_frame [188] = Some status_frame) by (vm_compute; reflexivity).
  split; [exact He|]. exact (encode_frame_crc_residue [188] status_frame He).
Defined.



Lemma close_failure_leaves_open_witness :
  let s0 := fake_session false (repeat (err_reply 5) 10) in
  fst (close s0) = Raise (DeviceError "PROTOCOL_ERROR") /\
  is_closed (snd (close s0)) = false.
Proof.
  intro s0.
  assert (Hc : close s0 = (Raise (DeviceError "PROTOCOL_ERROR"), snd (close s0)))
    by (vm_compute; reflexivity).
  split; [rewrite Hc; reflexivity|].
  exact (proj1 (proj2 (close_failure_leaves_open (D := FakeDev) (F := Z) s0 _ _ Hc))).
Defined.



Lemma read_count_and_list_length_witness :
  let s0 := fake_session false [ok_reply [2]; ok_reply [30; 5; 0; 0]; ok_reply [14; 6; 0; 0]] in
  exists nb rest s2,
    query_device [165] 10 s0 = (Ret (nb :: rest), s2) /\
    0 <= nb < 256 /\ length [1310; 1550] = Z.to_nat nb.
Proof.
  intro s0.
  assert (Hr : read_count_and_list 165 167 s0
               = (Ret [1310; 1550], snd (read_count_and_list 165 167 s0)))
    by (vm_compute; reflexivity).
  exact (read_count_and_list_length (D := FakeDev) (F := Z) 165 167 s0 _ _ Hr).
Defined.

Lemma populate_identity_fields_witness :
  let s0 := fake_session false populate_script in
  exists d, fst (populate_device_descr s0) = Ret d /\
    manufacturer d = [65] /\ model d = [66] /\ serial d = [67].
Proof.
  intro s0.
  set (d := mkDescriptor [65] [66] [67] [49] [83; 77] (1310, 1550) 1 2 [1310; 1550] []).
  assert (Hq : query_device [0] 10 s0
               = (Ret [65; 32; 44; 32; 66; 44; 67; 0], snd (query_device [0] 10 s0)))
    by (vm_compute; reflexivity).
  assert (Hp : populate_device_descr s0 = (Ret d, snd (populate_device_descr s0)))
    by (vm_compute; reflexivity).
  exists d. split; [rewrite Hp; reflexivity|].
  exact (populate_identity_fields (D := FakeDev) (F := Z) s0 _ _ [65; 32] [32; 66] [67] [] d _
           Hq eq_refl
           ltac:(intro Hin; repeat (destruct Hin as [Hin|Hin]; [discriminate|]); exact Hin)
           ltac:(intro Hin; repeat (destruct Hin as [Hin|Hin]; [discriminate|]); exact Hin)
           ltac:(intro Hin; repeat (destruct Hin as [Hin|Hin]; [discriminate|]); exact Hin)
           (or_introl eq_refl) Hp).
Defined.

Lemma read_descriptor_twice_outcome_witness :
  let s0 := fake_session false (repeat (err_reply 5) 20 ++ [ok_reply []]) in
  fst (read_descriptor_twice s0) = Raise (SystemError "Device properties read : failure") /\
  is_closed (snd (read_descriptor_twice s0)) = true.
Proof.
  intro s0.
  destruct (read_descriptor_twice_outcome (D := FakeDev) (F := Z) s0) as [_ [_ H3]].
  set (s1 := snd (populate_device_descr s0)).
  set (s2 := snd (populate_device_descr s1)).
  assert (H1 : populate_device_descr s0 = (Raise (DeviceError "PROTOCOL_ERROR"), s1))
    by (vm_compute; reflexivity).
  assert (H2 : populate_device_descr s1 = (Raise (DeviceError "PROTOCOL_ERROR"), s2))
    by (vm_compute; reflexivity).
  assert (Hc : close s2 = (Ret tt, snd (close s2))) by (vm_compute; reflexivity).
  destruct (proj1 (H3 _ _ _ _ H1 H2) _ Hc) as [Hr Hcl].
  rewrite Hr. split; [reflexivity | exact Hcl].
Defined.

Lemma init_session_open_witness :
  let s0 := fake_session true (ok_reply [] :: populate_script) in
  is_closed (snd (init_session s0)) = false /\
  exists s1 s2, populate_device_descr s1 = (Ret (device_descriptor (snd (init_session s0))), s2) /\
    HANDLE (snd (init_session s0)) = HANDLE s2 /\ trace (snd (init_session s0)) = trace s2 /\
    is_closed s2 = false.
Proof.
  intro s0.
  assert (Hi : init_session s0 = (Ret tt, snd (init_session s0))) by (vm_compute; reflexivity).
  exact (init_session_open (D := FakeDev) (F := Z) s0 _ Hi).
Defined.


Lemma wait_while_fake_witness :
  let s0 := fake_session false [ok_reply [1; 0; 0]; ok_reply [1; 0; 1]; ok_reply [0; 0; 0]] in
  wait_while SETTLING 5 s0 =
    (Ret tt, mkFVA600 false (mkFake [] []) (concat (repeat status_events 3)) test_descriptor).
Proof.
  intro s0.
  assert (Hf : Forall (flags_decode_to SETTLING) [[1; 0; 0]; [1; 0; 1]]).
  { repeat constructor.
    - exists 1, 0, 0. split; [reflexivity|]. repeat split; try lia; reflexivity.
    - exists 1, 0, 1. split; [reflexivity|]. repeat split; try lia; reflexivity. }
  exact (proj1 (wait_while_fake (F := Z) SETTLING [[1; 0; 0]; [1; 0; 1]] 0 0 0 [] [] 5 s0
                  eq_refl Hf ltac:(lia) ltac:(lia) ltac:(lia) ltac:(discriminate) eq_refl)
               ltac:(simpl; lia)).
Defined.
